(** * The MessageBird REST client dispatcher ([client.go])

    A shallow embedding of [Client.Request] and of the fragment of Go's
    standard library it calls, followed by the properties of the
    dispatcher: URL resolution, the header set, the classification of
    responses by status code, the effect on the caller's result target
    and the neutrality of the debug logger. *)

From Stdlib Require Import ZArith NArith Ascii String List Bool Lia DecimalString.
From stdpp Require Import base option gmap strings list.

Local Open Scope string_scope.
Local Open Scope Z_scope.

(** ** Byte strings

    Go's [string] and [[]byte] are both sequences of bytes; the model
    uses [String.string] for the two.  [string(responseBody)] is
    therefore the identity. *)

Abbreviation bytes := string (only parsing).

(** [strings.HasPrefix(s, prefix)]: a byte-wise, case-sensitive test. *)
Definition HasPrefix (s prefix : string) : bool := String.prefix prefix s.

(** [Contains s sub]: [sub] occurs in [s] as a contiguous block. *)
Definition Contains (s sub : string) : Prop :=
  exists pre post : string, s = pre +:+ sub +:+ post.

(** ASCII lower-casing of a byte and of a string, used to speak about
    case variants of a URL scheme and in the folding of JSON keys. *)
Definition lower_ascii (c : ascii) : ascii :=
  let n := N_of_ascii c in
  if ((65 <=? n) && (n <=? 90))%N then ascii_of_N (n + 32) else c.

Fixpoint to_lower (s : string) : string :=
  match s with
  | EmptyString => EmptyString
  | String c r => String (lower_ascii c) (to_lower r)
  end.

(** The folding under which [encoding/json] matches the key of a member
    against the name of a field.  Besides the two cases of an ASCII
    letter, Unicode simple folding puts exactly two code points in the
    class of an ASCII letter: U+017F (long s, bytes C5 BF) with s, and
    U+212A (Kelvin sign, bytes E2 84 AA) with k.  [fold_key] is exact for
    the comparison with a name made of ASCII bytes, which is all this
    development uses it for. *)
Fixpoint fold_key (s : string) : string :=
  match s with
  | EmptyString => EmptyString
  | String c r =>
      let plain := String (lower_ascii c) (fold_key r) in
      match r with
      | String c2 r2 =>
          if (N_of_ascii c =? 197)%N && (N_of_ascii c2 =? 191)%N
          then String "s" (fold_key r2)
          else
            match r2 with
            | String c3 r3 =>
                if (N_of_ascii c =? 226)%N && (N_of_ascii c2 =? 132)%N
                   && (N_of_ascii c3 =? 170)%N
                then String "k" (fold_key r3)
                else plain
            | EmptyString => plain
            end
      | EmptyString => plain
      end
  end.

Definition EqualFold (a b : string) : bool := String.eqb (fold_key a) (fold_key b).

(** ** JSON values

    The syntax tree that Go's [encoding/json] scanner recognises.  A
    number keeps its sign, integer digits, fraction digits and exponent
    apart, since a Go [int] target accepts only literals without
    fraction and exponent. *)

#[local] Set Warnings "-register-all".

Record jnumber := JNum {
  num_neg : bool;
  num_int : N;
  num_frac : string;
  num_exp : option Z
}.

Inductive json :=
| JNull
| JBool (b : bool)
| JNumber (n : jnumber)
| JString (s : string)
| JArray (elems : list json)
| JObject (members : list (string * json)).

Definition jint (z : Z) : json :=
  JNumber {| num_neg := z <? 0; num_int := Z.abs_N z; num_frac := EmptyString; num_exp := None |}.

Module Scanner.

(** Tokens of the JSON grammar. *)
Inductive token :=
| TLBrace | TRBrace | TLBrack | TRBrack | TColon | TComma
| TString (s : string)
| TNumber (n : jnumber)
| TTrue | TFalse | TNull.

Definition isSpace (c : ascii) : bool :=
  match c with
  | " "%char | "009"%char | "010"%char | "013"%char => true
  | _ => false
  end.

Definition isDigit (c : ascii) : bool :=
  let n := N_of_ascii c in ((48 <=? n) && (n <=? 57))%N.

Definition digit_val (c : ascii) : N := (N_of_ascii c - 48)%N.

Definition hex_val (c : ascii) : option N :=
  let n := N_of_ascii c in
  if ((48 <=? n) && (n <=? 57))%N then Some (n - 48)%N
  else if ((97 <=? n) && (n <=? 102))%N then Some (n - 87)%N
  else if ((65 <=? n) && (n <=? 70))%N then Some (n - 55)%N
  else None.

Definition hex4 (a b c d : ascii) : option N :=
  match hex_val a, hex_val b, hex_val c, hex_val d with
  | Some x, Some y, Some z, Some w => Some (((x * 16 + y) * 16 + z) * 16 + w)%N
  | _, _, _, _ => None
  end.

(** UTF-8 encoding of a code point (at most U+10FFFF). *)
Definition byte_of (n : N) : ascii := ascii_of_N (n mod 256).

Definition utf8 (r : N) : string :=
  if (r <? 128)%N then String (byte_of r) EmptyString
  else if (r <? 2048)%N then
    String (byte_of (192 + r / 64)) (String (byte_of (128 + r mod 64)) EmptyString)
  else if (r <? 65536)%N then
    String (byte_of (224 + r / 4096))
      (String (byte_of (128 + (r / 64) mod 64))
         (String (byte_of (128 + r mod 64)) EmptyString))
  else
    String (byte_of (240 + r / 262144))
      (String (byte_of (128 + (r / 4096) mod 64))
         (String (byte_of (128 + (r / 64) mod 64))
            (String (byte_of (128 + r mod 64)) EmptyString))).

Definition replacement_char : N := 65533.
Definition is_high_surrogate (r : N) : bool := ((55296 <=? r) && (r <? 56320))%N.
Definition is_low_surrogate (r : N) : bool := ((56320 <=? r) && (r <? 57344))%N.

Definition dquote : ascii := ascii_of_N 34.
Definition backslash : ascii := ascii_of_N 92.

Definition unescape (e : ascii) : option ascii :=
  if Ascii.eqb e dquote then Some dquote
  else if Ascii.eqb e backslash then Some backslash
  else match e with
       | "/"%char => Some "/"%char
       | "b"%char => Some "008"%char
       | "f"%char => Some "012"%char
       | "n"%char => Some "010"%char
       | "r"%char => Some "013"%char
       | "t"%char => Some "009"%char
       | _ => None
       end.

(** [utf8.DecodeRune] on a byte of 0x80 or more: the width of the valid
    UTF-8 sequence that begins with [c] and goes on in [rest], or 0 when
    there is none ([c] is then replaced by U+FFFD and passed over
    alone).  Overlong forms, surrogates and code points above U+10FFFF
    are not valid. *)
Definition in_range (lo hi : N) (c : ascii) : bool :=
  let n := N_of_ascii c in ((lo <=? n) && (n <=? hi))%N.

Definition is_cont (c : ascii) : bool := in_range 128 191 c.

Definition utf8_width (c : ascii) (rest : string) : nat :=
  let n := N_of_ascii c in
  match rest with
  | String c2 rest2 =>
      if in_range 194 223 c then (if is_cont c2 then 2 else 0)%nat
      else
        let second3 :=
          if (n =? 224)%N then in_range 160 191 c2
          else if (n =? 237)%N then in_range 128 159 c2
          else in_range 225 239 c && is_cont c2 in
        let second4 :=
          if (n =? 240)%N then in_range 144 191 c2
          else if (n =? 244)%N then in_range 128 143 c2
          else in_range 241 243 c && is_cont c2 in
        match rest2 with
        | String c3 rest3 =>
            if second3 && is_cont c3 then 3%nat
            else
              match rest3 with
              | String c4 _ =>
                  if second4 && is_cont c3 && is_cont c4 then 4%nat else 0%nat
              | EmptyString => 0%nat
              end
        | EmptyString => 0%nat
        end
  | EmptyString => 0%nat
  end.

(** The body of a string literal, after the opening quote: the
    unquoted text and the input left after the closing quote.  Control
    bytes below 0x20 and unknown escapes are syntax errors; a [\u]
    escape yields the UTF-8 bytes of its code point, a surrogate pair
    is combined and a lone surrogate becomes U+FFFD.  A valid UTF-8
    sequence is copied, and every other byte of 0x80 or more becomes
    U+FFFD.  [pending] counts the bytes of a valid sequence that are
    still to be copied. *)
Fixpoint scan_string (pending : nat) (s : string) : option (string * string) :=
  match s with
  | EmptyString => None
  | String c rest =>
      match pending with
      | S pending' =>
          match scan_string pending' rest with
          | Some (t, out) => Some (String c t, out)
          | None => None
          end
      | O =>
      if Ascii.eqb c dquote then Some (EmptyString, rest)
      else if Ascii.eqb c backslash then
        match rest with
        | EmptyString => None
        | String "u"%char (String h1 (String h2 (String h3 (String h4 rest1)))) =>
            match hex4 h1 h2 h3 h4 with
            | None => None
            | Some r =>
                if is_high_surrogate r then
                  match rest1 with
                  | String b' (String "u"%char
                      (String l1 (String l2 (String l3 (String l4 rest2))))) =>
                      match (if Ascii.eqb b' backslash then hex4 l1 l2 l3 l4 else None) with
                      | Some r' =>
                          if is_low_surrogate r' then
                            match scan_string O rest2 with
                            | Some (t, out) =>
                                Some (utf8 (65536 + (r - 55296) * 1024 + (r' - 56320))%N +:+ t, out)
                            | None => None
                            end
                          else
                            match scan_string O rest1 with
                            | Some (t, out) => Some (utf8 replacement_char +:+ t, out)
                            | None => None
                            end
                      | None =>
                          match scan_string O rest1 with
                          | Some (t, out) => Some (utf8 replacement_char +:+ t, out)
                          | None => None
                          end
                      end
                  | _ =>
                      match scan_string O rest1 with
                      | Some (t, out) => Some (utf8 replacement_char +:+ t, out)
                      | None => None
                      end
                  end
                else
                  match scan_string O rest1 with
                  | Some (t, out) =>
                      Some (utf8 (if is_low_surrogate r then replacement_char else r) +:+ t, out)
                  | None => None
                  end
            end
        | String e rest1 =>
            match unescape e, scan_string O rest1 with
            | Some c', Some (t, out) => Some (String c' t, out)
            | _, _ => None
            end
        end
      else if (N_of_ascii c <? 32)%N then None
      else if (N_of_ascii c <? 128)%N then
        match scan_string O rest with
        | Some (t, out) => Some (String c t, out)
        | None => None
        end
      else
        match utf8_width c rest with
        | O =>
            match scan_string O rest with
            | Some (t, out) => Some (utf8 replacement_char +:+ t, out)
            | None => None
            end
        | S width' =>
            match scan_string width' rest with
            | Some (t, out) => Some (String c t, out)
            | None => None
            end
        end
      end
  end.

(** Leading decimal digits: their value, the digits and the rest. *)
Fixpoint scan_digits (acc : N) (s : string) : N * string * string :=
  match s with
  | String c rest =>
      if isDigit c then
        let '(v, ds, out) := scan_digits (acc * 10 + digit_val c)%N rest in
        (v, String c ds, out)
      else (acc, EmptyString, s)
  | EmptyString => (acc, EmptyString, s)
  end.

(** A number literal: an optional minus sign; an integer part that is
    either a single zero or a non-zero digit followed by digits; an
    optional fraction (a dot and at least one digit); an optional
    exponent (e or E, an optional sign, at least one digit). *)
Definition scan_int (s : string) : option (N * string) :=
  match s with
  | String "0"%char rest => Some (0%N, rest)
  | String c _ =>
      if isDigit c then
        let '(v, _, out) := scan_digits 0 s in Some (v, out)
      else None
  | EmptyString => None
  end.

Definition scan_frac (s : string) : option (string * string) :=
  match s with
  | String "."%char rest =>
      let '(_, ds, out) := scan_digits 0 rest in
      if String.eqb ds EmptyString then None else Some (ds, out)
  | _ => Some (EmptyString, s)
  end.

Definition scan_exp_digits (neg : bool) (s : string) : option (option Z * string) :=
  let '(v, ds, out) := scan_digits 0 s in
  if String.eqb ds EmptyString then None
  else Some (Some (if neg then - Z.of_N v else Z.of_N v), out).

Definition scan_exp (s : string) : option (option Z * string) :=
  match s with
  | String c rest =>
      if Ascii.eqb c "e" || Ascii.eqb c "E" then
        match rest with
        | String "+"%char rest' => scan_exp_digits false rest'
        | String "-"%char rest' => scan_exp_digits true rest'
        | _ => scan_exp_digits false rest
        end
      else Some (None, s)
  | EmptyString => Some (None, s)
  end.

Definition scan_number (s : string) : option (jnumber * string) :=
  let '(neg, s1) :=
    match s with
    | String "-"%char rest => (true, rest)
    | _ => (false, s)
    end in
  match scan_int s1 with
  | None => None
  | Some (i, s2) =>
      match scan_frac s2 with
      | None => None
      | Some (f, s3) =>
          match scan_exp s3 with
          | None => None
          | Some (e, s4) =>
              Some ({| num_neg := neg; num_int := i; num_frac := f; num_exp := e |}, s4)
          end
      end
  end.

(** The token stream of an input, by recursion on the input.  A token
    that spans several bytes is recognised at its first byte; [skip]
    counts the bytes of it that are still to be passed over. *)
Definition consumed (s out : string) : nat := (String.length s - String.length out - 1)%nat.

Fixpoint tokens (skip : nat) (s : string) : option (list token) :=
  match s with
  | EmptyString => Some []
  | String c rest =>
      match skip with
      | S skip' => tokens skip' rest
      | O =>
          let emit (t : token) (skip : nat) :=
            match tokens skip rest with
            | Some ts => Some (t :: ts)
            | None => None
            end in
          if isSpace c then tokens O rest
          else match c with
               | "{"%char => emit TLBrace O
               | "}"%char => emit TRBrace O
               | "["%char => emit TLBrack O
               | "]"%char => emit TRBrack O
               | ":"%char => emit TColon O
               | ","%char => emit TComma O
               | _ =>
                   if Ascii.eqb c dquote then
                     match scan_string O rest with
                     | Some (t, out) => emit (TString t) (consumed s out)
                     | None => None
                     end
                   else if HasPrefix s "true" then emit TTrue 3%nat
                   else if HasPrefix s "false" then emit TFalse 4%nat
                   else if HasPrefix s "null" then emit TNull 3%nat
                   else match scan_number s with
                        | Some (n, out) => emit (TNumber n) (consumed s out)
                        | None => None
                        end
               end
      end
  end.

End Scanner.

Module Parser.
Import Scanner.

(** The containers that are open while the tokens are read: an array
    with the elements read so far, or an object with the members read so
    far and the key whose value is being read (both in reverse). *)
Inductive frame :=
| InArray (done : list json)
| InObject (done : list (string * json)) (key : string).

(** What the parser expects next.  [first] says that the container has
    just been opened, so that it may be closed at once. *)
Inductive state :=
| ExpectValue (first : bool) (stack : list frame)
| ExpectKey (first : bool) (done : list (string * json)) (stack : list frame)
| ExpectColon (key : string) (done : list (string * json)) (stack : list frame)
| AfterValue (v : json) (stack : list frame).

(** The scanner refuses to open a container inside 10000 open ones
    ([maxNestingDepth]).  A value is only expected with every enclosing
    container on the stack, so the stack is as long as the nesting is
    deep. *)
Definition maxNestingDepth : N := 10000.
Definition can_open (stack : list frame) : bool :=
  (N.of_nat (length stack) <? maxNestingDepth)%N.

Definition step (st : state) (t : token) : option state :=
  match st with
  | ExpectValue first stack =>
      match t with
      | TNull => Some (AfterValue JNull stack)
      | TTrue => Some (AfterValue (JBool true) stack)
      | TFalse => Some (AfterValue (JBool false) stack)
      | TNumber n => Some (AfterValue (JNumber n) stack)
      | TString s => Some (AfterValue (JString s) stack)
      | TLBrack => if can_open stack then Some (ExpectValue true (InArray [] :: stack)) else None
      | TLBrace => if can_open stack then Some (ExpectKey true [] stack) else None
      | TRBrack =>
          match first, stack with
          | true, InArray [] :: stack' => Some (AfterValue (JArray []) stack')
          | _, _ => None
          end
      | _ => None
      end
  | ExpectKey first done stack =>
      match t with
      | TString k => Some (ExpectColon k done stack)
      | TRBrace => if first then Some (AfterValue (JObject []) stack) else None
      | _ => None
      end
  | ExpectColon k done stack =>
      match t with
      | TColon => Some (ExpectValue false (InObject done k :: stack))
      | _ => None
      end
  | AfterValue v stack =>
      match stack, t with
      | InArray done :: stack', TComma => Some (ExpectValue false (InArray (v :: done) :: stack'))
      | InArray done :: stack', TRBrack => Some (AfterValue (JArray (rev (v :: done))) stack')
      | InObject done k :: stack', TComma => Some (ExpectKey false ((k, v) :: done) stack')
      | InObject done k :: stack', TRBrace =>
          Some (AfterValue (JObject (rev ((k, v) :: done))) stack')
      | _, _ => None
      end
  end.

Fixpoint run (st : state) (ts : list token) : option state :=
  match ts with
  | [] => Some st
  | t :: ts' =>
      match step st t with
      | Some st' => run st' ts'
      | None => None
      end
  end.

(** A document is one value, with nothing open and nothing after it. *)
Definition parse (ts : list token) : option json :=
  match run (ExpectValue false []) ts with
  | Some (AfterValue v []) => Some v
  | _ => None
  end.

End Parser.

(** [checkValid data]: the syntax check that [json.Unmarshal] runs over
    the whole input before it touches the target.  [Some j] is a valid
    document with syntax tree [j]; [None] is a syntax error. *)
Definition checkValid (data : bytes) : option json :=
  match Scanner.tokens O data with
  | Some ts => Parser.parse ts
  | None => None
  end.

(** Writes of quoted text: [dq] turns every apostrophe of its argument
    into a double quote, so that JSON documents can be written down
    legibly. *)
Fixpoint dq (s : string) : string :=
  match s with
  | EmptyString => EmptyString
  | String c r => String (if Ascii.eqb c "'" then Scanner.dquote else c) (dq r)
  end.

(** ** Errors of [encoding/json]

    [SyntaxError data] is the [*json.SyntaxError] of the scanner on the
    input [data]; [UnmarshalTypeError value type] is the error saved
    when a JSON value does not fit the Go type of its target. *)
Inductive json_error :=
| SyntaxError (data : bytes)
| UnmarshalTypeError (Value : string) (Type_ : string).

(** The word Go uses for the kind of a JSON value in an
    [UnmarshalTypeError]. *)
Definition json_kind (j : json) : string :=
  match j with
  | JNull => "null"
  | JBool _ => "bool"
  | JNumber _ => "number"
  | JString _ => "string"
  | JArray _ => "array"
  | JObject _ => "object"
  end.

(** [Unmarshal] goes on after a value that does not fit and reports the
    earliest such error at the end. *)
Definition first_error (e1 e2 : option json_error) : option json_error :=
  match e1 with
  | Some _ => e1
  | None => e2
  end.

(** A target type of [json.Unmarshal]: [decode j cur] is the target after
    the valid document [j] has been decoded over the current value [cur],
    with the saved error, if any.  The target can have been written even
    when an error is reported. *)
Class Unmarshaler (V : Type) := decode : json -> V -> V * option json_error.

(** A source type of [json.Marshal]: the encoding or an error message
    (unsupported type, cyclic value). *)
Class Marshaler (D : Type) := json_Marshal : D -> bytes + string.

(** Go [int] on a 64-bit platform. *)
Definition int_min : Z := - 2 ^ 63.
Definition int_max : Z := 2 ^ 63 - 1.

Definition number_int (n : jnumber) : option Z :=
  let z := if num_neg n then - Z.of_N (num_int n) else Z.of_N (num_int n) in
  if String.eqb (num_frac n) EmptyString && bool_decide (num_exp n = None)
     && (int_min <=? z) && (z <=? int_max)
  then Some z else None.

(** An [int] target: [null] leaves it as it is; a number literal is
    stored when it has neither fraction nor exponent and fits; anything
    else is a type error that leaves the target as it is.  (For a literal
    that does not fit, Go's [Value] also quotes the literal.) *)
#[export] Instance decode_int : Unmarshaler Z := fun j cur =>
  match j with
  | JNull => (cur, None)
  | JNumber n =>
      match number_int n with
      | Some z => (z, None)
      | None => (cur, Some (UnmarshalTypeError "number" "int"))
      end
  | _ => (cur, Some (UnmarshalTypeError (json_kind j) "int"))
  end.

(** A [string] target. *)
#[export] Instance decode_string : Unmarshaler string := fun j cur =>
  match j with
  | JNull => (cur, None)
  | JString s => (s, None)
  | _ => (cur, Some (UnmarshalTypeError (json_kind j) "string"))
  end.

(** A [*string] target: [null] resets it to nil; for any other value the
    pointer is allocated first, and the value is then decoded into the
    string it points to. *)
#[export] Instance decode_string_ptr : Unmarshaler (option string) := fun j cur =>
  match j with
  | JNull => (None, None)
  | _ =>
      let '(s, e) := decode j (default EmptyString cur) in
      (Some s, e)
  end.

(** A slice target: [null] sets it to nil; the [i]-th element of an
    array is decoded over the [i]-th element of the slice, or over a
    zero element beyond its length, and the slice ends up as long as the
    array. *)
Fixpoint decode_elements `{Unmarshaler A} (zero : A) (js : list json) (cur : list A)
    : list A * option json_error :=
  match js with
  | [] => ([], None)
  | j :: js' =>
      let '(x, e1) := decode j (hd zero cur) in
      let '(xs, e2) := decode_elements zero js' (tl cur) in
      (x :: xs, first_error e1 e2)
  end.

Definition decode_slice `{Unmarshaler A} (zero : A) (type_name : string)
    (j : json) (cur : list A) : list A * option json_error :=
  match j with
  | JNull => ([], None)
  | JArray js => decode_elements zero js cur
  | _ => (cur, Some (UnmarshalTypeError (json_kind j) type_name))
  end.

(** A struct target: [null] leaves it as it is; the members of an object
    are decoded in order, each into the field that [store] selects by
    its key (keys without a field are skipped by [store]). *)
Fixpoint decode_members {S : Type} (store : string -> json -> S -> S * option json_error)
    (ms : list (string * json)) (cur : S) : S * option json_error :=
  match ms with
  | [] => (cur, None)
  | (k, j) :: ms' =>
      let '(cur1, e1) := store k j cur in
      let '(cur2, e2) := decode_members store ms' cur1 in
      (cur2, first_error e1 e2)
  end.

Definition decode_struct {S : Type} (store : string -> json -> S -> S * option json_error)
    (type_name : string) (j : json) (cur : S) : S * option json_error :=
  match j with
  | JNull => (cur, None)
  | JObject ms => decode_members store ms cur
  | _ => (cur, Some (UnmarshalTypeError (json_kind j) type_name))
  end.

(** ** The API's error envelope *)

(** Modelled from the spec: the declarations of [Error] and
    [ErrorResponse], which [Request] uses and which are not part of
    [client.go].  An error item has a machine code, a human description,
    an optional parameter name and an optional documentation reference;
    the envelope is the ordered sequence of items under the key
    [errors]. *)
Record Error := mkError {
  code : Z;
  description : string;
  parameter : option string;
  documentation : option string
}.

(** Modelled from the spec: the envelope, declared next to [Error]. *)
Record ErrorResponse := mkErrorResponse {
  Errors : list Error
}.

Definition zero_Error : Error := mkError 0 EmptyString None None.
Definition zero_ErrorResponse : ErrorResponse := mkErrorResponse [].

Definition store_Error (k : string) (j : json) (cur : Error) : Error * option json_error :=
  if EqualFold k "code" then
    let '(x, e) := decode j (code cur) in
    (mkError x (description cur) (parameter cur) (documentation cur), e)
  else if EqualFold k "description" then
    let '(x, e) := decode j (description cur) in
    (mkError (code cur) x (parameter cur) (documentation cur), e)
  else if EqualFold k "parameter" then
    let '(x, e) := decode j (parameter cur) in
    (mkError (code cur) (description cur) x (documentation cur), e)
  else if EqualFold k "documentation" then
    let '(x, e) := decode j (documentation cur) in
    (mkError (code cur) (description cur) (parameter cur) x, e)
  else (cur, None).

#[export] Instance decode_Error : Unmarshaler Error :=
  decode_struct store_Error "messagebird.Error".

Definition store_ErrorResponse (k : string) (j : json) (cur : ErrorResponse)
    : ErrorResponse * option json_error :=
  if EqualFold k "errors" then
    let '(x, e) := decode_slice zero_Error "[]messagebird.Error" j (Errors cur) in
    (mkErrorResponse x, e)
  else (cur, None).

#[export] Instance decode_ErrorResponse : Unmarshaler ErrorResponse :=
  decode_struct store_ErrorResponse "messagebird.ErrorResponse".

(** The wire form of an envelope, as a syntax tree: optional fields that
    are absent have no member. *)
Definition optional_member (k : string) (o : option string) : list (string * json) :=
  match o with
  | Some s => [(k, JString s)]
  | None => []
  end.

Definition Error_json (e : Error) : json :=
  JObject (app [("code", jint (code e)); ("description", JString (description e))]
            (app (optional_member "parameter" (parameter e))
                 (optional_member "documentation" (documentation e)))).

Definition ErrorResponse_json (r : ErrorResponse) : json :=
  JObject [("errors", JArray (map Error_json (Errors r)))].

(** The body of the 422 response in the specification's example. *)
Definition body_422 : bytes :=
  dq "{'errors':[{'code':9,'description':'is invalid','parameter':'originator'}]}".

(** ** [json.Unmarshal] *)

(** [json.Unmarshal(data, &x)] for a variable [x] of a concrete type: the
    whole input is checked first, so a syntax error leaves [x] as it
    was; a valid document is then decoded over [x]. *)
Definition json_Unmarshal `{Unmarshaler V} (data : bytes) (cur : V) : V * option json_error :=
  match checkValid data with
  | None => (cur, Some (SyntaxError data))
  | Some j => decode j cur
  end.

(** The argument [v interface{}] of [Request], by its dynamic type.
    It holds a non-nil pointer to the caller's variable, of a type that
    is not itself a pointer type ([Pointer x], with [x] the current
    value of that variable); or a non-nil pointer to a variable of a
    pointer type ([PointerToPointer x]); or anything else (nil, a value
    that is not a pointer, a nil pointer). *)
Inductive Target (V : Type) :=
| NotAPointer
| Pointer (x : V)
| PointerToPointer (x : V).
Arguments NotAPointer {V}.
Arguments Pointer {V} x.
Arguments PointerToPointer {V} x.

(** [strconv.ParseFloat(s, 64)] fails on a literal whose value rounds to
    an infinity: one of magnitude at least the largest [float64] plus
    half a unit in its last place, which is [2^1024 - 2^970].  (A value
    too small for a [float64] is no error.) *)
Fixpoint digits_value (acc : N) (ds : string) : N :=
  match ds with
  | EmptyString => acc
  | String c r => digits_value (acc * 10 + Scanner.digit_val c)%N r
  end.

Definition float64_limit : Z := 2 ^ 1024 - 2 ^ 970.

Definition float64_overflows (n : jnumber) : bool :=
  let m := Z.of_N (digits_value (num_int n) (num_frac n)) in
  let e := default 0 (num_exp n) - Z.of_nat (String.length (num_frac n)) in
  if 0 <=? e then float64_limit <=? m * 10 ^ e
  else float64_limit * 10 ^ (- e) <=? m.

(** Decoding into an empty interface: every document is stored as a
    generic value, with its numbers as [float64]; the only error is that
    of a number that no [float64] can hold. *)
Fixpoint decode_interface (j : json) : option json_error :=
  match j with
  | JNumber n =>
      if float64_overflows n then Some (UnmarshalTypeError "number" "float64") else None
  | JArray js =>
      (fix elements (js : list json) : option json_error :=
         match js with
         | [] => None
         | j' :: js' => first_error (decode_interface j') (elements js')
         end) js
  | JObject ms =>
      (fix members (ms : list (string * json)) : option json_error :=
         match ms with
         | [] => None
         | (_, j') :: ms' => first_error (decode_interface j') (members ms')
         end) ms
  | _ => None
  end.

(** [json.Unmarshal(data, &v)] for the local interface variable [v].
    When [v] holds a pointer, the decoder goes through the interface to
    the caller's variable, except for the document [null] and a variable
    that is not of a pointer type; when the variable is of a pointer
    type, the call is [json.Unmarshal] into that variable for every
    document.  Otherwise the decoder stores a generic value in the local
    [v], which the caller never sees. *)
Definition json_Unmarshal_interface `{Unmarshaler V} (data : bytes) (v : Target V)
    : Target V * option json_error :=
  match checkValid data with
  | None => (v, Some (SyntaxError data))
  | Some j =>
      match v, j with
      | PointerToPointer x, _ => let '(x', e) := decode j x in (PointerToPointer x', e)
      | _, JNull => (v, None)
      | NotAPointer, _ => (v, decode_interface j)
      | Pointer x, _ => let '(x', e) := decode j x in (Pointer x', e)
      end
  end.

(** ** The runtime around [Request]

    What [Request] takes from the Go runtime and standard library and
    what this development leaves open: the URL parser and printer of
    [net/url], the version string of the runtime, the validation done by
    [http.NewRequest], and the wording of the errors of [encoding/json]
    (their [Error] method). *)
Class Runtime := {
  url_URL : Type;
  url_Parse : string -> url_URL + string;
  URL_String : url_URL -> string;
  runtime_Version : string;
  NewRequest_error : string -> string -> option string;
  json_error_text : json_error -> string
}.

(** ** Errors returned by [Request] *)
Inductive error :=
| ErrUnexpectedResponse
    (** the package variable of that name, one fixed value *)
| errorString (s : string)
    (** a fresh value made by [fmt.Errorf] *)
| url_Error (msg : string)
    (** returned by [url.Parse] *)
| json_MarshalError (msg : string)
    (** returned by [json.Marshal] *)
| http_NewRequestError (msg : string)
    (** returned by [http.NewRequest] *)
| http_DoError (msg : string)
    (** returned by [HTTPClient.Do] *)
| io_ReadError (msg : string)
    (** returned by [ioutil.ReadAll] *)
| json_Error (e : json_error)
    (** returned by [json.Unmarshal], as it is *)
| APIError (r : ErrorResponse)
    (** an [ErrorResponse] value used as an error *).

(** The text of [ErrUnexpectedResponse]. *)
Definition ErrUnexpectedResponse_text : string :=
  "The MessageBird API is currently unavailable".

(** ** Constants of the package *)
Definition ClientVersion : string := "4.2.1".
Definition Endpoint : string := "https://rest.messagebird.com".

(** ** HTTP requests and responses *)

Abbreviation http_Header := (gmap string (list string)) (only parsing).

Record http_Request := mkRequest {
  Method : string;
  URL : string;
  Header : http_Header;
  Body : bytes
}.

(** [Header.Set(key, value)] replaces the values of [key] by the single
    [value].  The keys that [Request] sets are in canonical form already,
    so the canonicalisation of the key is the identity on them. *)
Definition Header_Set (key value : string) (r : http_Request) : http_Request :=
  mkRequest (Method r) (URL r) (<[key := [value]]> (Header r)) (Body r).

(** [http.NewRequest(method, url, body)]: an empty method means GET; an
    invalid method or URL is an error; the new request has no header. *)
Definition http_NewRequest `{Runtime} (method url : string) (body : bytes)
    : http_Request + string :=
  match NewRequest_error method url with
  | Some e => inr e
  | None =>
      inl (mkRequest (if String.eqb method EmptyString then "GET" else method) url ∅ body)
  end.

(** A response as [Request] sees it: the status code and what
    [ioutil.ReadAll] makes of the body, the bytes or a read error. *)
Record http_Response := mkResponse {
  StatusCode : Z;
  ReadAll : bytes + string
}.

(** [*log.Logger]: the lines printed so far. *)
Definition Logger := list string.
Definition Printf (l : Logger) (line : string) : Logger := app l [line].

(** [Client].  [HTTPClient] is the [Do] method of the configured HTTP
    client: the response to a request or a transport error. *)
Record Client := mkClient {
  AccessKey : string;
  HTTPClient : http_Request -> http_Response + string;
  DebugLog : option Logger
}.

Definition set_DebugLog (c : Client) (d : option Logger) : Client :=
  mkClient (AccessKey c) (HTTPClient c) d.

(** What a call of [Request] leaves behind: the returned error ([None]
    is nil), the caller's target, the request handed to the HTTP client
    (if the call got that far) and the debug logger. *)
Record Outcome (V : Type) := mkOutcome {
  err : option error;
  target : Target V;
  sent : option http_Request;
  log : option Logger
}.
Arguments mkOutcome {V}.
Arguments err {V}.
Arguments target {V}.
Arguments sent {V}.
Arguments log {V}.

(** ** [Client.Request] *)

Section Request.
Context `{Runtime} {D V : Type} `{Marshaler D} `{Unmarshaler V}.

(** Lines 62-64: the string handed to [url.Parse]. *)
Definition resolve (path : string) : string :=
  if negb (HasPrefix path "https://") && negb (HasPrefix path "http://")
  then Endpoint +:+ "/" +:+ path
  else path.

(** Lines 70-76: the encoded payload; [jsonEncoded] stays nil, the
    empty slice, when [data] is nil. *)
Definition encode (data : option D) : bytes + string :=
  match data with
  | Some d => json_Marshal d
  | None => inl EmptyString
  end.

(** Lines 83-86. *)
Definition set_headers (c : Client) (request : http_Request) : http_Request :=
  Header_Set "User-Agent" ("MessageBird/ApiClient/" +:+ ClientVersion +:+ " Go/" +:+ runtime_Version)
    (Header_Set "Authorization" ("AccessKey " +:+ AccessKey c)
       (Header_Set "Accept" "application/json"
          (Header_Set "Content-Type" "application/json" request))).

(** Lines 88-94. *)
Definition log_request (c : Client) (method uri : string) (data : option D)
    (jsonEncoded : bytes) : option Logger :=
  match DebugLog c with
  | Some l =>
      match data with
      | Some _ =>
          Some (Printf l ("HTTP REQUEST: " +:+ method +:+ " " +:+ uri +:+ " " +:+ jsonEncoded))
      | None =>
          Some (Printf l ("HTTP REQUEST: " +:+ method +:+ " " +:+ uri))
      end
  | None => None
  end.

(** Lines 108-110. *)
Definition log_response (l : option Logger) (responseBody : bytes) : option Logger :=
  match l with
  | Some l => Some (Printf l ("HTTP RESPONSE: " +:+ responseBody))
  | None => None
  end.

(** Line 121: the error made by [fmt.Errorf]. *)
Definition decode_failure (responseBody : bytes) (e : json_error) : error :=
  errorString ("could not decode response JSON, " +:+ responseBody +:+ ": " +:+ json_error_text e).

(** Lines 96-132: the request is handed to the HTTP client, the body of
    the response is read and the response is classified by its status
    code. *)
Definition exchange (c : Client) (v : Target V) (request : http_Request)
    (l : option Logger) : Outcome V :=
  match HTTPClient c request with
  | inr e => mkOutcome (Some (http_DoError e)) v (Some request) l
  | inl response =>
      match ReadAll response with
      | inr e => mkOutcome (Some (io_ReadError e)) v (Some request) l
      | inl responseBody =>
          let l := log_response l responseBody in
          if StatusCode response =? 500 then
            mkOutcome (Some ErrUnexpectedResponse) v (Some request) l
          else if (StatusCode response =? 200) || (StatusCode response =? 201) then
            match json_Unmarshal_interface responseBody v with
            | (v', Some e) =>
                mkOutcome (Some (decode_failure responseBody e)) v' (Some request) l
            | (v', None) => mkOutcome None v' (Some request) l
            end
          else
            match json_Unmarshal responseBody zero_ErrorResponse with
            | (_, Some e) => mkOutcome (Some (json_Error e)) v (Some request) l
            | (errorResponse, None) =>
                mkOutcome (Some (APIError errorResponse)) v (Some request) l
            end
      end
  end.

(** Lines 61-94, followed by [exchange]. *)
Definition Request (c : Client) (v : Target V) (method path : string) (data : option D)
    : Outcome V :=
  let path := resolve path in
  match url_Parse path with
  | inr e => mkOutcome (Some (url_Error e)) v None (DebugLog c)
  | inl uri =>
      match encode data with
      | inr e => mkOutcome (Some (json_MarshalError e)) v None (DebugLog c)
      | inl jsonEncoded =>
          match http_NewRequest method (URL_String uri) jsonEncoded with
          | inr e => mkOutcome (Some (http_NewRequestError e)) v None (DebugLog c)
          | inl request =>
              let request := set_headers c request in
              let l := log_request c method (URL_String uri) data jsonEncoded in
              exchange c v request l
          end
      end
  end.

End Request.

(** ** Instances for the closed examples *)

Module Sample.

(** A runtime for the examples: its URL parser accepts the strings made
    of printable bytes without spaces and prints them back as they were
    written. *)
Definition plain_byte (c : ascii) : bool :=
  let n := N_of_ascii c in ((32 <? n) && (n <? 127))%N.

Fixpoint all_plain (s : string) : bool :=
  match s with
  | EmptyString => true
  | String c r => plain_byte c && all_plain r
  end.

Definition runtime : Runtime := {|
  url_URL := string;
  url_Parse := fun s =>
    if all_plain s then inl s else inr "net/url: invalid character in URL";
  URL_String := fun u => u;
  runtime_Version := "go1.10";
  NewRequest_error := fun _ _ => None;
  json_error_text := fun e =>
    match e with
    | SyntaxError _ => "invalid character looking for beginning of value"
    | UnmarshalTypeError v t =>
        "json: cannot unmarshal " +:+ v +:+ " into Go value of type " +:+ t
    end
|}.

(** The payload [struct{}{}], which [json.Marshal] encodes as an empty
    object. *)
Definition empty_struct : Marshaler unit := fun _ => inl "{}".

(** A result shape with two fields,
    [struct { ID int; Name string }]. *)
Record Contact := mkContact {
  ID : Z;
  Name : string
}.

Definition store_Contact (k : string) (j : json) (cur : Contact)
    : Contact * option json_error :=
  if EqualFold k "id" then
    let '(x, e) := decode j (ID cur) in (mkContact x (Name cur), e)
  else if EqualFold k "name" then
    let '(x, e) := decode j (Name cur) in (mkContact (ID cur) x, e)
  else (cur, None).

Definition decode_Contact : Unmarshaler Contact :=
  decode_struct store_Contact "messagebird.Contact".

(** A transport that answers every request with the same status code
    and body. *)
Definition always (status : Z) (body : bytes) : http_Request -> http_Response + string :=
  fun _ => inl (mkResponse status (inl body)).

Definition client (status : Z) (body : bytes) (d : option Logger) : Client :=
  mkClient "test-key" (always status body) d.

(** A call without payload into a [*Contact], against the transport
    that always answers with [status] and [body]. *)
Definition call (status : Z) (body : bytes) (d : option Logger)
    (v : Target Contact) (method path : string) : Outcome Contact :=
  @Request runtime unit Contact empty_struct decode_Contact
    (client status body d) v method path None.

(** The request that such a call sends to [url]. *)
Definition request_to (url : string) : http_Request :=
  mkRequest "GET" url
    (list_to_map
       [("Content-Type", ["application/json"]);
        ("Accept", ["application/json"]);
        ("Authorization", ["AccessKey test-key"]);
        ("User-Agent", ["MessageBird/ApiClient/4.2.1 Go/go1.10"])])
    EmptyString.

Definition old_contact : Contact := mkContact 0 "old".



(** The wire form of a [Contact], as a syntax tree. *)
Definition Contact_json (x : Contact) : json :=
  JObject [("ID", jint (ID x)); ("Name", JString (Name x))].

(** A body that is valid JSON but has a number where [Contact] has a
    string. *)
Definition body_mismatch : bytes := dq "{'id':7,'name':5}".

(** An envelope of two items, with white space, members in another
    order, a member without a field and an escaped slash. *)
Definition body_404 : bytes :=
  dq "{ 'status': 404, 'errors': [ {'description':'message not found','code':20}, {'Code': 2, 'description': 'Request not allowed', 'documentation': 'https:\/\/developers.messagebird.com', 'parameter': null} ] }".

End Sample.

(** [answers c request status body]: the HTTP client of [c] answers
    [request] with a response of that status code whose body reads in
    full as [body]. *)
Definition answers (c : Client) (request : http_Request) (status : Z) (body : bytes) : Prop :=
  HTTPClient c request = inl (mkResponse status (inl body)).

(** [is_variant_of scheme s]: [s] is [scheme] written with at least one
    upper-case letter. *)
Definition is_variant_of (scheme s : string) : Prop :=
  to_lower s = scheme /\ s <> scheme.

(** A path that begins with an upper-case or mixed-case variant of one of
    the two scheme prefixes. *)
Definition scheme_variant (path : string) : Prop :=
  exists s rest : string,
    path = s +:+ rest /\
    (is_variant_of "http://" s \/ is_variant_of "https://" s).

(** The header set of every request: the four keys with one value each. *)
Definition standard_headers `{Runtime} (c : Client) : gmap string (list string) :=
  list_to_map
    [("Content-Type", ["application/json"]);
     ("Accept", ["application/json"]);
     ("Authorization", ["AccessKey " +:+ AccessKey c]);
     ("User-Agent", ["MessageBird/ApiClient/" +:+ ClientVersion +:+ " Go/" +:+ runtime_Version])].

(** ** [New] *)

(** [httpClientTimeout], a [time.Duration]: 15 seconds in nanoseconds. *)
Definition httpClientTimeout : Z := 15 * 1000000000.

(** [New(accessKey)]: the client with that access key, the HTTP client
    [&http.Client{Timeout: httpClientTimeout}] and no debug logger.
    [http_Client_Do timeout] is the [Do] method of [net/http]'s client
    with that timeout, which this development leaves open. *)
Definition New (http_Client_Do : Z -> http_Request -> http_Response + string)
    (accessKey : string) : Client :=
  mkClient accessKey (http_Client_Do httpClientTimeout) None.

(** ** Further instances for the closed examples *)

Module Failing.

(** A transport on which every request fails, and one whose responses
    break off while the body is read. *)
Definition refused : http_Request -> http_Response + string :=
  fun _ => inr "dial tcp: connection refused".

Definition truncated (status : Z) : http_Request -> http_Response + string :=
  fun _ => inl (mkResponse status (inr "unexpected EOF")).

(** A payload that [json.Marshal] cannot encode, such as a channel. *)
Definition unsupported : Marshaler unit :=
  fun _ => inr "json: unsupported type: chan int".

(** Calls into a [*Contact] with the payload [struct{}{}], or without
    payload, through a given transport. *)
Definition call_via (do : http_Request -> http_Response + string) (d : option Logger)
    (method path : string) (data : option unit) : Outcome Sample.Contact :=
  @Request Sample.runtime unit Sample.Contact Sample.empty_struct Sample.decode_Contact
    (mkClient "test-key" do d) (Pointer Sample.old_contact) method path data.

(** The request of such a call with the payload [struct{}{}]. *)
Definition post_to (url : string) : http_Request :=
  mkRequest "POST" url (Header (Sample.request_to url)) "{}".

(** A standard HTTP client that refuses every connection, whatever its
    timeout is. *)
Definition refused_Do (timeout : Z) : http_Request -> http_Response + string := refused.

(** The same calls with another target. *)
Definition call_into (v : Target Sample.Contact)
    (do : http_Request -> http_Response + string) (d : option Logger)
    (method path : string) (data : option unit) : Outcome Sample.Contact :=
  @Request Sample.runtime unit Sample.Contact Sample.empty_struct Sample.decode_Contact
    (mkClient "test-key" do d) v method path data.

End Failing.

(** ** [net/url] on plain HTTP URLs *)

Module NetURL.

(** What [url.Parse] and [URL.String] do on the URLs of one form: the
    scheme [http] or [https] in lower case, a host of letters, digits,
    dots and hyphens with an optional port, and a path without percent
    sign, query and fragment.  Such a string parses unless it has a
    control byte, and is printed back with its path as it was when every
    byte of the path may stand in an encoded path, and with its path
    escaped otherwise.  A string of another form is refused by
    [Parse] here with the error [outside], which marks the limit of this
    module and is not an error of [net/url]. *)
Definition alnum (c : ascii) : bool :=
  Scanner.in_range 48 57 c || Scanner.in_range 65 90 c || Scanner.in_range 97 122 c.

Fixpoint mem_byte (c : ascii) (set : string) : bool :=
  match set with
  | EmptyString => false
  | String x r => Ascii.eqb c x || mem_byte c r
  end.

Fixpoint all_bytes (p : ascii -> bool) (s : string) : bool :=
  match s with
  | EmptyString => true
  | String c r => p c && all_bytes p r
  end.

Definition is_ctl (c : ascii) : bool := (N_of_ascii c <? 32)%N || (N_of_ascii c =? 127)%N.

(** [shouldEscape(c, encodePath)] and the bytes that [validEncoded]
    accepts in a path (the percent sign apart). *)
Definition shouldEscape (c : ascii) : bool :=
  negb (alnum c || mem_byte c "-_.~" || mem_byte c "$&+,/:;=@").

Definition valid_path_byte (c : ascii) : bool :=
  mem_byte c "!$&'()*+,;=:@[]" || negb (shouldEscape c).

Definition upper_hex (n : N) : ascii :=
  if (n <? 10)%N then ascii_of_N (48 + n) else ascii_of_N (55 + n).

Fixpoint escape (s : string) : string :=
  match s with
  | EmptyString => EmptyString
  | String c r =>
      if shouldEscape c
      then String "%" (String (upper_hex (N_of_ascii c / 16))
                         (String (upper_hex (N_of_ascii c mod 16)) (escape r)))
      else String c (escape r)
  end.

(** The authority and the path: the input up to its first slash, and
    the rest. *)
Fixpoint split_authority (s : string) : string * string :=
  match s with
  | EmptyString => (EmptyString, EmptyString)
  | String c r =>
      if Ascii.eqb c "/" then (EmptyString, s)
      else let '(a, p) := split_authority r in (String c a, p)
  end.

Fixpoint valid_authority (first : bool) (s : string) : bool :=
  match s with
  | EmptyString => negb first
  | String c r =>
      if Ascii.eqb c ":" then negb first && all_bytes (Scanner.in_range 48 57) r
      else (alnum c || mem_byte c ".-") && valid_authority false r
  end.

Record URL := mkURL {
  scheme_and_authority : string;
  Path : string
}.

Definition outside : string := "outside the URLs of module NetURL".

Definition Parse_after (scheme rest : string) : URL + string :=
  let '(authority, path) := split_authority rest in
  if valid_authority true authority && all_bytes (fun c => negb (mem_byte c "%?#")) path
  then inl (mkURL (scheme +:+ authority) path)
  else inr outside.

Definition strip (prefix s : string) : string :=
  String.substring (String.length prefix) (String.length s - String.length prefix) s.

Definition Parse (rawURL : string) : URL + string :=
  if negb (all_bytes (fun c => negb (is_ctl c)) rawURL)
  then inr "net/url: invalid control character in URL"
  else if HasPrefix rawURL "https://" then Parse_after "https://" (strip "https://" rawURL)
  else if HasPrefix rawURL "http://" then Parse_after "http://" (strip "http://" rawURL)
  else inr outside.

Definition String_ (u : URL) : string :=
  scheme_and_authority u
  +:+ (if all_bytes valid_path_byte (Path u) then Path u else escape (Path u)).

(** [http.NewRequest] refuses a method that is not a token; the URL it
    is given was printed by [String_] and parses again. *)
Definition validMethod (method : string) : bool :=
  all_bytes (fun c => alnum c || mem_byte c "!#$%&'*+-.^_`|~") method.

Definition runtime : Runtime := {|
  url_URL := URL;
  url_Parse := Parse;
  URL_String := String_;
  runtime_Version := "go1.10";
  NewRequest_error := fun method _ =>
    if validMethod method then None else Some "net/http: invalid method";
  json_error_text := fun e =>
    match e with
    | SyntaxError _ => "invalid character looking for beginning of value"
    | UnmarshalTypeError v t =>
        "json: cannot unmarshal " +:+ v +:+ " into Go value of type " +:+ t
    end
|}.

(** A call without payload into a [*Contact] under this runtime. *)
Definition call (status : Z) (body : bytes) (method path : string) : Outcome Sample.Contact :=
  @Request runtime unit Sample.Contact Sample.empty_struct Sample.decode_Contact
    (Sample.client status body None) (Pointer Sample.old_contact) method path None.

End NetURL.

(** ** Further result shapes for the closed examples *)

Module Shapes.






Definition call_string_ptr (status : Z) (body : bytes) (v : Target (option string))
    (method path : string) : Outcome (option string) :=
  @Request Sample.runtime unit (option string) Sample.empty_struct decode_string_ptr
    (Sample.client status body None) v method path None.

End Shapes.

(** ** The lines of the debug log *)

(** The line printed before the request is handed to the HTTP client
    (lines 88-94), in terms of the request, and the line printed after
    the body of the response has been read (lines 108-110). *)
Definition request_line {D : Type} (method : string) (data : option D)
    (request : http_Request) : string :=
  match data with
  | Some _ => "HTTP REQUEST: " +:+ method +:+ " " +:+ URL request +:+ " " +:+ Body request
  | None => "HTTP REQUEST: " +:+ method +:+ " " +:+ URL request
  end.

Definition response_line (body : bytes) : string := "HTTP RESPONSE: " +:+ body.

(** The debug logger of [c] after [lines] have been printed to it, if
    [c] has one. *)
Definition logged (c : Client) (lines : list string) : option Logger :=
  match DebugLog c with
  | Some l => Some (app l lines)
  | None => None
  end.

(** The two tests of the status code, lines 114 and 119. *)
Definition is_500 (status : Z) : Prop := status = 500.
Definition is_200_or_201 (status : Z) : Prop := status = 200 \/ status = 201.

(** The codes of an envelope fit a Go [int]. *)
Definition codes_in_range (r : ErrorResponse) : Prop :=
  Forall (fun e => int_min <= code e <= int_max) (Errors r).

(** * Properties of [Request] *)

Section Dispatch.
Context `{Runtime} {D V : Type} `{Marshaler D} `{Unmarshaler V}.
Implicit Types (c : Client) (v : Target V) (data : option D) (request : http_Request).

Lemma exchange_sent c v request l :
  sent (exchange c v request l) = Some request.
Proof.
  unfold exchange.
  destruct (HTTPClient c request) as [response|e]; [|reflexivity].
  destruct (ReadAll response) as [responseBody|e]; [|reflexivity].
  destruct (StatusCode response =? 500); [reflexivity|].
  destruct ((StatusCode response =? 200) || (StatusCode response =? 201)).
  - destruct (json_Unmarshal_interface responseBody v) as [v' [e|]]; reflexivity.
  - destruct (json_Unmarshal responseBody zero_ErrorResponse) as [r [e|]]; reflexivity.
Qed.

(** A call that hands a request to the HTTP client parsed the resolved
    path and built that request from the parsed URL with the four
    headers; the rest of the call is [exchange]. *)
Lemma Request_sent c v method path data request :
  sent (Request c v method path data) = Some request ->
  exists uri jsonEncoded bare,
    url_Parse (resolve path) = inl uri /\
    encode data = inl jsonEncoded /\
    http_NewRequest method (URL_String uri) jsonEncoded = inl bare /\
    request = set_headers c bare /\
    Request c v method path data
    = exchange c v request (log_request c method (URL_String uri) data jsonEncoded).
Proof.
  unfold Request.
  destruct (url_Parse (resolve path)) as [uri|e] eqn:Huri; [|discriminate].
  destruct (encode data) as [jsonEncoded|e] eqn:Henc; [|discriminate].
  destruct (http_NewRequest method (URL_String uri) jsonEncoded) as [bare|e] eqn:Hnew;
    [|discriminate].
  rewrite exchange_sent. intros [= <-].
  exists uri, jsonEncoded, bare. repeat split; assumption || reflexivity.
Qed.

(** The outcome of [exchange] on an answered request, by status code. *)
Lemma exchange_500 c v request l body :
  answers c request 500 body ->
  exchange c v request l
  = mkOutcome (Some ErrUnexpectedResponse) v (Some request) (log_response l body).
Proof. unfold answers, exchange. intros ->. reflexivity. Qed.

Lemma exchange_success c v request l status body :
  answers c request status body ->
  status = 200 \/ status = 201 ->
  exchange c v request l
  = match json_Unmarshal_interface body v with
    | (v', Some e) =>
        mkOutcome (Some (decode_failure body e)) v' (Some request) (log_response l body)
    | (v', None) => mkOutcome None v' (Some request) (log_response l body)
    end.
Proof.
  unfold answers, exchange. intros -> [-> | ->]; reflexivity.
Qed.

Lemma exchange_other c v request l status body :
  answers c request status body ->
  status <> 200 -> status <> 201 -> status <> 500 ->
  exchange c v request l
  = match json_Unmarshal body zero_ErrorResponse with
    | (_, Some e) => mkOutcome (Some (json_Error e)) v (Some request) (log_response l body)
    | (errorResponse, None) =>
        mkOutcome (Some (APIError errorResponse)) v (Some request) (log_response l body)
    end.
Proof.
  unfold answers, exchange. intros -> H200 H201 H500. cbn.
  apply Z.eqb_neq in H200, H201, H500. rewrite H200, H201, H500. reflexivity.
Qed.

(** ** Status 500 *)

(** C1.  When the response has status code 500, [Request] returns the
    fixed value [ErrUnexpectedResponse], whatever the body is (the
    body is universally quantified and the result does not mention
    it), and the caller's target is as it was. *)
Theorem status_500_is_ErrUnexpectedResponse c v method path data request body :
  sent (Request c v method path data) = Some request ->
  answers c request 500 body ->
  err (Request c v method path data) = Some ErrUnexpectedResponse /\
  target (Request c v method path data) = v.
Proof.
  intros Hsent Hans.
  destruct (Request_sent _ _ _ _ _ _ Hsent) as (uri & js & bare & _ & _ & _ & _ & ->).
  rewrite (exchange_500 _ _ _ _ _ Hans). split; reflexivity.
Qed.

End Dispatch.

(** ** URL resolution *)

Ltac split_string s c :=
  destruct s as [|c s]; [discriminate|].

Lemma HasPrefix_cons (a b : ascii) (p s : string) :
  HasPrefix (String b s) (String a p) = true -> b = a /\ HasPrefix s p = true.
Proof.
  unfold HasPrefix.
  change (String.prefix (String a p) (String b s))
    with (if ascii_dec a b then String.prefix p s else false).
  destruct (ascii_dec a b) as [->|]; [auto | discriminate].
Qed.

Ltac prefix_chars :=
  repeat match goal with
    | H : HasPrefix (String _ _) (String _ _) = true |- _ =>
        apply HasPrefix_cons in H; destruct H as [-> H]
    end.

Lemma variant_http_no_prefix (s rest : string) :
  is_variant_of "http://" s ->
  HasPrefix (s +:+ rest) "http://" = false /\ HasPrefix (s +:+ rest) "https://" = false.
Proof.
  intros [Hlow Hne].
  split_string s c1. split_string s c2. split_string s c3. split_string s c4.
  split_string s c5. split_string s c6. split_string s c7.
  destruct s; [|discriminate].
  cbn in Hlow. injection Hlow as H1 H2 H3 H4 H5 H6 H7.
  split.
  - destruct (HasPrefix _ "http://") eqn:Hp; [|reflexivity].
    exfalso. apply Hne. cbv [String.append] in Hp. prefix_chars. reflexivity.
  - destruct (HasPrefix _ "https://") eqn:Hp; [|reflexivity].
    exfalso. cbv [String.append] in Hp. prefix_chars.
    vm_compute in H5. discriminate H5.
Qed.

Lemma variant_https_no_prefix (s rest : string) :
  is_variant_of "https://" s ->
  HasPrefix (s +:+ rest) "http://" = false /\ HasPrefix (s +:+ rest) "https://" = false.
Proof.
  intros [Hlow Hne].
  split_string s c1. split_string s c2. split_string s c3. split_string s c4.
  split_string s c5. split_string s c6. split_string s c7. split_string s c8.
  destruct s; [|discriminate].
  cbn in Hlow. injection Hlow as H1 H2 H3 H4 H5 H6 H7 H8.
  split.
  - destruct (HasPrefix _ "http://") eqn:Hp; [|reflexivity].
    exfalso. cbv [String.append] in Hp. prefix_chars.
    vm_compute in H5. discriminate H5.
  - destruct (HasPrefix _ "https://") eqn:Hp; [|reflexivity].
    exfalso. apply Hne. cbv [String.append] in Hp. prefix_chars. reflexivity.
Qed.

Lemma resolve_relative (path : string) :
  HasPrefix path "https://" = false -> HasPrefix path "http://" = false ->
  resolve path = Endpoint +:+ "/" +:+ path.
Proof. unfold resolve. intros -> ->. reflexivity. Qed.

Lemma resolve_absolute (path : string) :
  HasPrefix path "https://" = true \/ HasPrefix path "http://" = true ->
  resolve path = path.
Proof.
  unfold resolve. intros [-> | ->]; [reflexivity|].
  destruct (HasPrefix path "https://"); reflexivity.
Qed.

Section Builder.
Context `{Runtime} {D V : Type} `{Marshaler D} `{Unmarshaler V}.
Implicit Types (c : Client) (v : Target V) (data : option D) (request : http_Request).

Lemma Request_sent_URL c v method path data request :
  sent (Request c v method path data) = Some request ->
  exists uri, url_Parse (resolve path) = inl uri /\ URL request = URL_String uri.
Proof.
  intros Hsent.
  destruct (Request_sent _ _ _ _ _ _ Hsent) as (uri & js & bare & Huri & _ & Hnew & -> & _).
  exists uri. split; [exact Huri|].
  unfold http_NewRequest in Hnew.
  destruct (NewRequest_error method (URL_String uri)); [discriminate|].
  injection Hnew as <-. reflexivity.
Qed.


(** C10.  The test for an absolute URL is the exact, case-sensitive
    prefix test: a path that begins with an upper-case or mixed-case
    variant of [http://] or [https://] passes neither test, so [Request]
    puts the base endpoint and a slash before it and parses the result as
    a URL. *)
Theorem scheme_test_is_case_sensitive c v method path data request :
  scheme_variant path ->
  sent (Request c v method path data) = Some request ->
  HasPrefix path "https://" = false /\
  HasPrefix path "http://" = false /\
  resolve path = Endpoint +:+ "/" +:+ path /\
  exists uri,
    url_Parse (Endpoint +:+ "/" +:+ path) = inl uri /\ URL request = URL_String uri.
Proof.
  intros (s & rest & -> & Hvar) Hsent.
  assert (Hno : HasPrefix (s +:+ rest) "http://" = false /\
                HasPrefix (s +:+ rest) "https://" = false)
    by (destruct Hvar; [apply variant_http_no_prefix | apply variant_https_no_prefix];
        assumption).
  destruct Hno as [Hhttp Hhttps].
  pose proof (resolve_relative _ Hhttps Hhttp) as Hres.
  repeat split; try assumption.
  destruct (Request_sent_URL _ _ _ _ _ _ Hsent) as (uri & Huri & Hurl).
  exists uri. rewrite <- Hres. split; assumption.
Qed.

End Builder.

(** ** Headers *)

Section Headers.
Context `{Runtime} {D V : Type} `{Marshaler D} `{Unmarshaler V}.
Implicit Types (c : Client) (v : Target V) (data : option D) (request : http_Request).

Lemma set_headers_Header c bare :
  Header bare = ∅ -> Header (set_headers c bare) = standard_headers c.
Proof.
  intros Hbare. unfold set_headers, Header_Set, standard_headers. cbn [Header].
  rewrite Hbare. reflexivity.
Qed.

Lemma standard_headers_dom c :
  dom (standard_headers c)
  = ({["Content-Type"; "Accept"; "Authorization"; "User-Agent"]} : gset string).
Proof.
  unfold standard_headers. cbn [list_to_map foldr fst snd uncurry].
  rewrite !dom_insert_L, dom_empty_L. set_solver.
Qed.

(** C8.  The request handed to the HTTP client has exactly four header
    keys, [Content-Type], [Accept], [Authorization] and [User-Agent];
    the first two have the value [application/json], and the value of
    [Authorization] is [AccessKey ] followed by the access key of the
    client. *)
Theorem four_headers c v method path data request :
  sent (Request c v method path data) = Some request ->
  Header request = standard_headers c /\
  dom (Header request)
  = ({["Content-Type"; "Accept"; "Authorization"; "User-Agent"]} : gset string) /\
  size (Header request) = 4%nat /\
  Header request !! "Content-Type" = Some ["application/json"] /\
  Header request !! "Accept" = Some ["application/json"] /\
  Header request !! "Authorization" = Some ["AccessKey " +:+ AccessKey c] /\
  Header request !! "User-Agent"
  = Some ["MessageBird/ApiClient/" +:+ ClientVersion +:+ " Go/" +:+ runtime_Version].
Proof.
  intros Hsent.
  destruct (Request_sent _ _ _ _ _ _ Hsent) as (uri & js & bare & _ & _ & Hnew & -> & _).
  assert (Hbare : Header bare = ∅).
  { unfold http_NewRequest in Hnew.
    destruct (NewRequest_error method (URL_String uri)); [discriminate|].
    injection Hnew as <-. reflexivity. }
  rewrite (set_headers_Header _ _ Hbare).
  split; [reflexivity|]. split; [apply standard_headers_dom|].
  split.
  { rewrite <- size_dom, standard_headers_dom. reflexivity. }
  repeat split; reflexivity.
Qed.

End Headers.

(** ** The debug logger *)

Section DebugLog.
Context `{Runtime} {D V : Type} `{Marshaler D} `{Unmarshaler V}.
Implicit Types (c : Client) (v : Target V) (data : option D) (request : http_Request).

(** [exchange] reads the logger only to write to it. *)
Lemma exchange_log_irrelevant c1 c2 v request l1 l2 :
  HTTPClient c1 = HTTPClient c2 ->
  err (exchange c1 v request l1) = err (exchange c2 v request l2) /\
  target (exchange c1 v request l1) = target (exchange c2 v request l2) /\
  sent (exchange c1 v request l1) = sent (exchange c2 v request l2).
Proof.
  intros Hsame. unfold exchange. rewrite Hsame.
  destruct (HTTPClient c2 request) as [response|e]; [|auto].
  destruct (ReadAll response) as [responseBody|e]; [|auto].
  destruct (StatusCode response =? 500); [auto|].
  destruct ((StatusCode response =? 200) || (StatusCode response =? 201)).
  - destruct (json_Unmarshal_interface responseBody v) as [v' [e|]]; auto.
  - destruct (json_Unmarshal responseBody zero_ErrorResponse) as [r [e|]]; auto.
Qed.

(** C9.  Two calls that differ only in the debug logger of the client
    (none, or any logger) return the same error, leave the same value in
    the caller's target and hand the same request to the HTTP client. *)
Theorem DebugLog_does_not_alter_outcome c v method path data (d1 d2 : option Logger) :
  err (Request (set_DebugLog c d1) v method path data)
  = err (Request (set_DebugLog c d2) v method path data) /\
  target (Request (set_DebugLog c d1) v method path data)
  = target (Request (set_DebugLog c d2) v method path data) /\
  sent (Request (set_DebugLog c d1) v method path data)
  = sent (Request (set_DebugLog c d2) v method path data).
Proof.
  unfold Request.
  destruct (url_Parse (resolve path)) as [uri|e]; [|auto].
  destruct (encode data) as [jsonEncoded|e]; [|auto].
  destruct (http_NewRequest method (URL_String uri) jsonEncoded) as [bare|e]; [|auto].
  change (set_headers (set_DebugLog c d1) bare) with (set_headers (set_DebugLog c d2) bare).
  apply exchange_log_irrelevant. reflexivity.
Qed.

End DebugLog.

(** ** Decoding the error envelope *)

Lemma decode_jint (z cur : Z) :
  int_min <= z <= int_max -> decode (jint z) cur = (z, None).
Proof.
  intros Hz. unfold decode, decode_int, jint, number_int. cbn.
  assert (Hval : (if z <? 0 then - Z.of_N (Z.abs_N z) else Z.of_N (Z.abs_N z)) = z).
  { rewrite N2Z.inj_abs_N. destruct (Z.ltb_spec z 0); lia. }
  rewrite Hval.
  destruct (Z.leb_spec int_min z); [|lia].
  destruct (Z.leb_spec z int_max); [|lia].
  reflexivity.
Qed.

Lemma decode_Error_json (e : Error) :
  int_min <= code e <= int_max ->
  decode (Error_json e) zero_Error = (e, None).
Proof.
  intros Hz. destruct e as [z d p doc]. cbn [code] in Hz.
  unfold decode, decode_Error, decode_struct, Error_json.
  cbn [code description parameter documentation app decode_members].
  change (store_Error "code" (jint z) zero_Error)
    with (let '(x, e) := decode (jint z) 0 in (mkError x EmptyString None None, e)).
  rewrite (decode_jint z 0 Hz).
  destruct p as [p|], doc as [doc|]; reflexivity.
Qed.

Lemma decode_elements_Error_json (es : list Error) :
  Forall (fun e => int_min <= code e <= int_max) es ->
  decode_elements zero_Error (map Error_json es) [] = (es, None).
Proof.
  induction 1 as [|e es He _ IH]; [reflexivity|].
  cbn [map decode_elements hd tl].
  rewrite (decode_Error_json e He), IH. reflexivity.
Qed.

(** Decoding the wire form of an envelope over a zero [ErrorResponse]
    gives the envelope back. *)
Lemma decode_ErrorResponse_json (r : ErrorResponse) :
  codes_in_range r ->
  decode (ErrorResponse_json r) zero_ErrorResponse = (r, None).
Proof.
  intros Hr. destruct r as [es]. unfold codes_in_range in Hr. cbn [Errors] in Hr.
  unfold decode, decode_ErrorResponse, decode_struct, ErrorResponse_json.
  cbn [Errors decode_members].
  change (store_ErrorResponse "errors" (JArray (map Error_json es)) zero_ErrorResponse)
    with (let '(x, e) := decode_elements zero_Error (map Error_json es) [] in
          (mkErrorResponse x, e)).
  rewrite (decode_elements_Error_json es Hr). reflexivity.
Qed.

(** Decoding the wire form of a [Contact] over any [Contact] gives the
    value back, and so does [json.Unmarshal] on a body with that syntax
    tree: the hypothesis of the round trip holds for this type. *)
Lemma decode_Contact_json (x cur : Sample.Contact) :
  int_min <= Sample.ID x <= int_max ->
  decode (Unmarshaler := Sample.decode_Contact) (Sample.Contact_json x) cur = (x, None).
Proof.
  intros Hz. destruct x as [z n]. cbn [Sample.ID] in Hz.
  unfold decode, Sample.decode_Contact, decode_struct, Sample.Contact_json.
  cbn [Sample.ID Sample.Name decode_members].
  change (Sample.store_Contact "ID" (jint z) cur)
    with (let '(x, e) := decode (jint z) (Sample.ID cur) in
          (Sample.mkContact x (Sample.Name cur), e)).
  rewrite (decode_jint z _ Hz). reflexivity.
Qed.

Lemma json_Unmarshal_Contact (body : bytes) (x cur : Sample.Contact) :
  checkValid body = Some (Sample.Contact_json x) ->
  int_min <= Sample.ID x <= int_max ->
  json_Unmarshal (H := Sample.decode_Contact) body cur = (x, None).
Proof.
  intros Hbody Hz. unfold json_Unmarshal. rewrite Hbody.
  apply decode_Contact_json. exact Hz.
Qed.

(** ** Strings *)

Lemma string_append_assoc (a b c : string) : (a +:+ b) +:+ c = a +:+ (b +:+ c).
Proof. induction a as [|x a IH]; [reflexivity|]. cbv [String.append] in *. now rewrite IH. Qed.

Lemma string_append_nil_r (a : string) : a +:+ EmptyString = a.
Proof. induction a as [|x a IH]; [reflexivity|]. cbv [String.append] in *. now rewrite IH. Qed.

Lemma Contains_middle (pre s post : string) : Contains (pre +:+ s +:+ post) s.
Proof. exists pre, post. reflexivity. Qed.

Lemma Contains_end (pre s : string) : Contains (pre +:+ s) s.
Proof. exists pre, EmptyString. now rewrite string_append_nil_r. Qed.

(** ** Classification of the response *)

Section Classifier.
Context `{Runtime} {D V : Type} `{Marshaler D} `{Unmarshaler V}.
Implicit Types (c : Client) (v : Target V) (data : option D) (request : http_Request).


(** A body that is not valid JSON leaves the target as it was. *)
Lemma json_Unmarshal_interface_invalid (body : bytes) v :
  checkValid body = None ->
  json_Unmarshal_interface body v = (v, Some (SyntaxError body)).
Proof. unfold json_Unmarshal_interface. intros ->. reflexivity. Qed.


Lemma structured_error_decoded c v method path data request status body (r : ErrorResponse) :
  sent (Request c v method path data) = Some request ->
  answers c request status body ->
  status <> 200 -> status <> 201 -> status <> 500 ->
  json_Unmarshal body zero_ErrorResponse = (r, None) ->
  err (Request c v method path data) = Some (APIError r) /\
  target (Request c v method path data) = v.
Proof.
  intros Hsent Hans H200 H201 H500 Hdec.
  destruct (Request_sent _ _ _ _ _ _ Hsent) as (uri & js & bare & _ & _ & _ & _ & ->).
  rewrite (exchange_other _ _ _ _ _ _ Hans H200 H201 H500), Hdec.
  split; reflexivity.
Qed.

(** A body with the syntax tree of an envelope decodes to that envelope. *)
Lemma json_Unmarshal_envelope (body : bytes) (r : ErrorResponse) :
  checkValid body = Some (ErrorResponse_json r) ->
  codes_in_range r ->
  json_Unmarshal body zero_ErrorResponse = (r, None).
Proof.
  intros Hbody Hr. unfold json_Unmarshal. rewrite Hbody.
  apply decode_ErrorResponse_json. exact Hr.
Qed.

Lemma body_422_envelope :
  checkValid body_422
  = Some (ErrorResponse_json
            (mkErrorResponse [mkError 9 "is invalid" (Some "originator") None])).
Proof. vm_compute. reflexivity. Qed.

(** C4.  When the status code is none of 200, 201 and 500 and the body
    decodes as an [ErrorResponse], [Request] returns the decoded envelope
    as its error, whatever the status code is; for a body that is the
    wire form of an envelope, that is the envelope itself, with the
    items of the body in order.  For status 422 and the body of the
    specification's example, the error has the single item with code 9,
    description [is invalid] and parameter [originator]. *)
Theorem structured_error c v method path data request :
  sent (Request c v method path data) = Some request ->
  (forall status body (r : ErrorResponse),
      answers c request status body ->
      status <> 200 -> status <> 201 -> status <> 500 ->
      json_Unmarshal body zero_ErrorResponse = (r, None) ->
      err (Request c v method path data) = Some (APIError r) /\
      target (Request c v method path data) = v) /\
  (forall status body (r : ErrorResponse),
      answers c request status body ->
      status <> 200 -> status <> 201 -> status <> 500 ->
      checkValid body = Some (ErrorResponse_json r) ->
      codes_in_range r ->
      err (Request c v method path data) = Some (APIError r) /\
      target (Request c v method path data) = v) /\
  (answers c request 422 body_422 ->
   err (Request c v method path data)
   = Some (APIError (mkErrorResponse [mkError 9 "is invalid" (Some "originator") None]))).
Proof.
  intros Hsent. split; [|split].
  - intros status body r. apply structured_error_decoded. exact Hsent.
  - intros status body r Hans H200 H201 H500 Hbody Hr.
    apply (structured_error_decoded _ _ _ _ _ _ status body r Hsent Hans H200 H201 H500).
    apply json_Unmarshal_envelope; assumption.
  - intros Hans.
    apply (structured_error_decoded _ _ _ _ _ _ 422 body_422 _ Hsent Hans);
      try discriminate.
    apply json_Unmarshal_envelope; [exact body_422_envelope|].
    repeat constructor; cbn; discriminate.
Qed.

(** C5.  When the status code is 200 or 201 and [json.Unmarshal] reports
    an error [e] for the body, [Request] returns a fresh error whose text
    is [could not decode response JSON, ], the body, a colon and the
    text of [e]; the body and the text of [e] both occur in it. *)
Theorem undecodable_success_body c v method path data request status body v' e :
  sent (Request c v method path data) = Some request ->
  answers c request status body ->
  status = 200 \/ status = 201 ->
  json_Unmarshal_interface body v = (v', Some e) ->
  exists msg,
    err (Request c v method path data) = Some (errorString msg) /\
    msg = "could not decode response JSON, " +:+ body +:+ ": " +:+ json_error_text e /\
    Contains msg body /\
    Contains msg (json_error_text e).
Proof.
  intros Hsent Hans Hstatus Hdec.
  destruct (Request_sent _ _ _ _ _ _ Hsent) as (uri & js & bare & _ & _ & _ & _ & ->).
  rewrite (exchange_success _ _ _ _ _ _ Hans Hstatus), Hdec.
  eexists. split; [reflexivity|]. split; [reflexivity|]. split.
  - apply Contains_middle.
  - rewrite <- !string_append_assoc. apply Contains_end.
Qed.

(** C6.  When the status code is none of 200, 201 and 500 and
    [json.Unmarshal] reports an error [e] for the body, [Request]
    returns [e] itself: not a fresh error made by [fmt.Errorf], which is
    what a body that cannot be decoded gets under 200 and 201.  For a
    body that is not valid JSON, [e] is the syntax error of the
    scanner. *)
Theorem malformed_error_body c v method path data request status body r' e :
  sent (Request c v method path data) = Some request ->
  answers c request status body ->
  status <> 200 -> status <> 201 -> status <> 500 ->
  json_Unmarshal body zero_ErrorResponse = (r', Some e) ->
  err (Request c v method path data) = Some (json_Error e) /\
  (forall msg, err (Request c v method path data) <> Some (errorString msg)) /\
  (forall e', err (Request c v method path data) <> Some (decode_failure body e')) /\
  (checkValid body = None -> e = SyntaxError body) /\
  target (Request c v method path data) = v.
Proof.
  intros Hsent Hans H200 H201 H500 Hdec.
  destruct (Request_sent _ _ _ _ _ _ Hsent) as (uri & js & bare & _ & _ & _ & _ & ->).
  rewrite (exchange_other _ _ _ _ _ _ Hans H200 H201 H500), Hdec. cbn.
  repeat split; try discriminate.
  intros Hinvalid. unfold json_Unmarshal in Hdec. rewrite Hinvalid in Hdec.
  congruence.
Qed.

(** C7, as amended.  An error other than the decode failure of a 200 or
    201 response leaves the caller's target as it was, and so does every
    error for a body that is not valid JSON; after a 200 or 201 response
    the target is what [json.Unmarshal] left in it, also when it reports
    an error. *)
Theorem target_untouched_except_by_decoder c v method path data :
  (forall e, err (Request c v method path data) = Some e ->
             (forall msg, e <> errorString msg) ->
             target (Request c v method path data) = v) /\
  (forall request status body,
      sent (Request c v method path data) = Some request ->
      answers c request status body ->
      checkValid body = None ->
      target (Request c v method path data) = v) /\
  (forall request status body,
      sent (Request c v method path data) = Some request ->
      answers c request status body ->
      status = 200 \/ status = 201 ->
      target (Request c v method path data) = fst (json_Unmarshal_interface body v)).
Proof.
  split; [|split].
  - intros e He Hkind. revert He. unfold Request.
    destruct (url_Parse (resolve path)) as [uri|e0]; [|reflexivity].
    destruct (encode data) as [jsonEncoded|e0]; [|reflexivity].
    destruct (http_NewRequest method (URL_String uri) jsonEncoded) as [bare|e0]; [|reflexivity].
    unfold exchange.
    destruct (HTTPClient c (set_headers c bare)) as [response|e0]; [|reflexivity].
    destruct (ReadAll response) as [responseBody|e0]; [|reflexivity].
    destruct (StatusCode response =? 500); [reflexivity|].
    destruct ((StatusCode response =? 200) || (StatusCode response =? 201)).
    + destruct (json_Unmarshal_interface responseBody v) as [v' [e0|]]; cbn.
      * intros [= <-]. exfalso. exact (Hkind _ eq_refl).
      * discriminate.
    + destruct (json_Unmarshal responseBody zero_ErrorResponse) as [r [e0|]]; reflexivity.
  - intros request status body Hsent Hans Hinvalid.
    destruct (Request_sent _ _ _ _ _ _ Hsent) as (uri & js & bare & _ & _ & _ & _ & ->).
    unfold answers in Hans. unfold exchange. rewrite Hans. cbn.
    destruct (status =? 500); [reflexivity|].
    destruct ((status =? 200) || (status =? 201)).
    + rewrite (json_Unmarshal_interface_invalid _ _ Hinvalid). reflexivity.
    + destruct (json_Unmarshal body zero_ErrorResponse) as [r [e0|]]; reflexivity.
  - intros request status body Hsent Hans Hstatus.
    destruct (Request_sent _ _ _ _ _ _ Hsent) as (uri & js & bare & _ & _ & _ & _ & ->).
    rewrite (exchange_success _ _ _ _ _ _ Hans Hstatus).
    destruct (json_Unmarshal_interface body v) as [v' [e0|]]; reflexivity.
Qed.

End Classifier.

(** ** The closed examples *)

(** Status 500 with an empty body, with a JSON body and with a body that
    is not JSON: the same error each time. *)
Lemma status_500_witness :
  err (Sample.call 500 EmptyString None (Pointer Sample.old_contact) "GET" "balance")
  = Some ErrUnexpectedResponse /\
  err (Sample.call 500 body_422 None (Pointer Sample.old_contact) "GET" "balance")
  = Some ErrUnexpectedResponse /\
  err (Sample.call 500 "<html>garbage" None (Pointer Sample.old_contact) "GET" "balance")
  = Some ErrUnexpectedResponse /\
  target (Sample.call 500 "<html>garbage" None (Pointer Sample.old_contact) "GET" "balance")
  = Pointer Sample.old_contact.
Proof.
  assert (Hsent : forall body,
             sent (Sample.call 500 body None (Pointer Sample.old_contact) "GET" "balance")
             = Some (Sample.request_to "https://rest.messagebird.com/balance"))
    by (intros body; vm_compute; reflexivity).
  pose proof (fun body =>
    @status_500_is_ErrUnexpectedResponse Sample.runtime unit Sample.Contact
      Sample.empty_struct Sample.decode_Contact
      (Sample.client 500 body None) (Pointer Sample.old_contact) "GET" "balance" None _ body
      (Hsent body) eq_refl) as H500.
  split; [exact (proj1 (H500 EmptyString))|].
  split; [exact (proj1 (H500 body_422))|].
  exact (H500 "<html>garbage").
Defined.





(** Status 422 with the body of the specification's example, and status
    404 with an envelope of two items in another layout. *)
Lemma structured_error_witness :
  err (Sample.call 422 body_422 None (Pointer Sample.old_contact) "GET" "messages")
  = Some (APIError (mkErrorResponse [mkError 9 "is invalid" (Some "originator") None])) /\
  target (Sample.call 422 body_422 None (Pointer Sample.old_contact) "GET" "messages")
  = Pointer Sample.old_contact /\
  err (Sample.call 404 Sample.body_404 None (Pointer Sample.old_contact) "GET" "messages/1")
  = Some (APIError (mkErrorResponse
                      [mkError 20 "message not found" None None;
                       mkError 2 "Request not allowed" None (Some "https://developers.messagebird.com")])).
Proof.
  assert (H422 : sent (Sample.call 422 body_422 None
                         (Pointer Sample.old_contact) "GET" "messages")
                 = Some (Sample.request_to "https://rest.messagebird.com/messages"))
    by (vm_compute; reflexivity).
  assert (H404 : sent (Sample.call 404 Sample.body_404 None
                         (Pointer Sample.old_contact) "GET" "messages/1")
                 = Some (Sample.request_to "https://rest.messagebird.com/messages/1"))
    by (vm_compute; reflexivity).
  destruct (@structured_error Sample.runtime unit Sample.Contact Sample.empty_struct
              Sample.decode_Contact _ _ _ _ _ _ H422) as (_ & Hwire & H9).
  destruct (@structured_error Sample.runtime unit Sample.Contact Sample.empty_struct
              Sample.decode_Contact _ _ _ _ _ _ H404) as (Hdecoded & _ & _).
  split; [apply H9; reflexivity|].
  split.
  - apply (Hwire 422 body_422
             (mkErrorResponse [mkError 9 "is invalid" (Some "originator") None]));
      [reflexivity | discriminate | discriminate | discriminate
      | vm_compute; reflexivity | repeat constructor; cbn; discriminate].
  - apply (Hdecoded 404 Sample.body_404);
      [reflexivity | discriminate | discriminate | discriminate | vm_compute; reflexivity].
Defined.

(** Status 200 with a body that is not JSON. *)
Lemma undecodable_success_body_witness :
  @json_Unmarshal_interface Sample.Contact Sample.decode_Contact "not json" (Pointer Sample.old_contact)
  = (Pointer Sample.old_contact, Some (SyntaxError "not json")) /\
  exists msg,
    err (Sample.call 200 "not json" None (Pointer Sample.old_contact) "GET" "balance")
    = Some (errorString msg) /\
    msg = "could not decode response JSON, not json: invalid character looking for beginning of value" /\
    Contains msg "not json" /\
    Contains msg "invalid character looking for beginning of value".
Proof.
  assert (Hsent : sent (Sample.call 200 "not json" None
                          (Pointer Sample.old_contact) "GET" "balance")
                  = Some (Sample.request_to "https://rest.messagebird.com/balance"))
    by (vm_compute; reflexivity).
  split; [reflexivity|].
  exact (@undecodable_success_body Sample.runtime unit Sample.Contact Sample.empty_struct
           Sample.decode_Contact (Sample.client 200 "not json" None) _ "GET" "balance" None _
           200 "not json" (Pointer Sample.old_contact) (SyntaxError "not json")
           Hsent eq_refl (or_introl eq_refl) eq_refl).
Defined.

(** Status 400 with a body that is not JSON. *)
Lemma malformed_error_body_witness :
  json_Unmarshal "not json" zero_ErrorResponse
  = (zero_ErrorResponse, Some (SyntaxError "not json")) /\
  err (Sample.call 400 "not json" None (Pointer Sample.old_contact) "GET" "balance")
  = Some (json_Error (SyntaxError "not json")) /\
  (forall msg,
      err (Sample.call 400 "not json" None (Pointer Sample.old_contact) "GET" "balance")
      <> Some (errorString msg)).
Proof.
  assert (Hsent : sent (Sample.call 400 "not json" None
                          (Pointer Sample.old_contact) "GET" "balance")
                  = Some (Sample.request_to "https://rest.messagebird.com/balance"))
    by (vm_compute; reflexivity).
  split; [reflexivity|].
  destruct (@malformed_error_body Sample.runtime unit Sample.Contact Sample.empty_struct
              Sample.decode_Contact (Sample.client 400 "not json" None) _ "GET" "balance" None _
              400 "not json" zero_ErrorResponse (SyntaxError "not json")
              Hsent eq_refl ltac:(discriminate) ltac:(discriminate) ltac:(discriminate) eq_refl)
    as (Herr & Hkind & _).
  split; [exact Herr | exact Hkind].
Defined.

(** C7, the claim as stated fails: status 200 with a body that is valid
    JSON but has a number where the target has a string.  [Request]
    returns an error, and the [ID] of the caller's variable has changed
    from 0 to 7. *)
Lemma decode_failure_writes_target :
  err (Sample.call 200 Sample.body_mismatch None (Pointer Sample.old_contact) "GET" "contacts/1")
  = Some (@decode_failure Sample.runtime Sample.body_mismatch
            (UnmarshalTypeError "number" "string")) /\
  target (Sample.call 200 Sample.body_mismatch None (Pointer Sample.old_contact) "GET" "contacts/1")
  = Pointer (Sample.mkContact 7 "old") /\
  target (Sample.call 200 Sample.body_mismatch None (Pointer Sample.old_contact) "GET" "contacts/1")
  <> Pointer Sample.old_contact.
Proof.
  split; [vm_compute; reflexivity|].
  split; [vm_compute; reflexivity|].
  vm_compute. discriminate.
Qed.

(** The three kinds of error path of the amended C7. *)
Lemma target_untouched_except_by_decoder_witness :
  target (Sample.call 400 "not json" None (Pointer Sample.old_contact) "GET" "balance")
  = Pointer Sample.old_contact /\
  target (Sample.call 200 "not json" None (Pointer Sample.old_contact) "GET" "balance")
  = Pointer Sample.old_contact /\
  target (Sample.call 200 Sample.body_mismatch None (Pointer Sample.old_contact) "GET" "balance")
  = fst (@json_Unmarshal_interface Sample.Contact Sample.decode_Contact Sample.body_mismatch
           (Pointer Sample.old_contact)).
Proof.
  assert (H400 : sent (Sample.call 400 "not json" None
                         (Pointer Sample.old_contact) "GET" "balance")
                 = Some (Sample.request_to "https://rest.messagebird.com/balance"))
    by (vm_compute; reflexivity).
  assert (H200 : sent (Sample.call 200 "not json" None
                         (Pointer Sample.old_contact) "GET" "balance")
                 = Some (Sample.request_to "https://rest.messagebird.com/balance"))
    by (vm_compute; reflexivity).
  assert (Hmis : sent (Sample.call 200 Sample.body_mismatch None
                         (Pointer Sample.old_contact) "GET" "balance")
                 = Some (Sample.request_to "https://rest.messagebird.com/balance"))
    by (vm_compute; reflexivity).
  split; [|split].
  - destruct (@target_untouched_except_by_decoder Sample.runtime unit Sample.Contact
                Sample.empty_struct Sample.decode_Contact (Sample.client 400 "not json" None)
                (Pointer Sample.old_contact) "GET" "balance" None) as (Hkind & _ & _).
    apply (Hkind (json_Error (SyntaxError "not json"))); [reflexivity | discriminate].
  - destruct (@target_untouched_except_by_decoder Sample.runtime unit Sample.Contact
                Sample.empty_struct Sample.decode_Contact (Sample.client 200 "not json" None)
                (Pointer Sample.old_contact) "GET" "balance" None) as (_ & Hinvalid & _).
    apply (Hinvalid _ 200 "not json" H200); reflexivity.
  - destruct (@target_untouched_except_by_decoder Sample.runtime unit Sample.Contact
                Sample.empty_struct Sample.decode_Contact
                (Sample.client 200 Sample.body_mismatch None)
                (Pointer Sample.old_contact) "GET" "balance" None) as (_ & _ & Hdec).
    apply (Hdec _ 200 Sample.body_mismatch Hmis); [reflexivity | left; reflexivity].
Defined.

(** The headers of a request of the sample client. *)
Lemma four_headers_witness :
  sent (Sample.call 200 "{}" None (Pointer Sample.old_contact) "GET" "balance")
  = Some (Sample.request_to "https://rest.messagebird.com/balance") /\
  size (Header (Sample.request_to "https://rest.messagebird.com/balance")) = 4%nat /\
  Header (Sample.request_to "https://rest.messagebird.com/balance") !! "Authorization"
  = Some ["AccessKey test-key"].
Proof.
  assert (Hsent : sent (Sample.call 200 "{}" None (Pointer Sample.old_contact) "GET" "balance")
                  = Some (Sample.request_to "https://rest.messagebird.com/balance"))
    by (vm_compute; reflexivity).
  split; [exact Hsent|].
  destruct (@four_headers Sample.runtime unit Sample.Contact Sample.empty_struct
              Sample.decode_Contact _ _ _ _ _ _ Hsent)
    as (_ & _ & Hsize & _ & _ & Hauth & _).
  split; [exact Hsize | exact Hauth].
Defined.

(** The path [HTTP://host/x]. *)
Lemma scheme_test_is_case_sensitive_witness :
  scheme_variant "HTTP://host/x" /\
  resolve "HTTP://host/x" = "https://rest.messagebird.com/HTTP://host/x" /\
  URL (Sample.request_to "https://rest.messagebird.com/HTTP://host/x")
  = "https://rest.messagebird.com/HTTP://host/x".
Proof.
  assert (Hvar : scheme_variant "HTTP://host/x").
  { exists "HTTP://", "host/x". split; [reflexivity|]. left. split; [reflexivity | discriminate]. }
  assert (Hsent : sent (Sample.call 200 "{}" None (Pointer Sample.old_contact) "GET"
                          "HTTP://host/x")
                  = Some (Sample.request_to "https://rest.messagebird.com/HTTP://host/x"))
    by (vm_compute; reflexivity).
  destruct (@scheme_test_is_case_sensitive Sample.runtime unit Sample.Contact
              Sample.empty_struct Sample.decode_Contact _ _ _ _ _ _ Hvar Hsent)
    as (_ & _ & Hres & _).
  split; [exact Hvar|]. split; [exact Hres | reflexivity].
Defined.

(** * Further properties of [Request] and [New] *)

Section Further.
Context `{Runtime} {D V : Type} `{Marshaler D} `{Unmarshaler V}.
Implicit Types (c : Client) (v : Target V) (data : option D) (request : http_Request).

(** A call that reaches the HTTP client, in terms of the request it
    sends. *)
Lemma Request_sent_fields c v method path data request :
  sent (Request c v method path data) = Some request ->
  exists uri,
    url_Parse (resolve path) = inl uri /\
    URL request = URL_String uri /\
    encode data = inl (Body request) /\
    Method request = (if String.eqb method EmptyString then "GET" else method) /\
    Header request = standard_headers c /\
    Request c v method path data
    = exchange c v request (log_request c method (URL request) data (Body request)).
Proof.
  intros Hsent.
  destruct (Request_sent _ _ _ _ _ _ Hsent)
    as (uri & js & bare & Huri & Henc & Hnew & -> & Heq).
  unfold http_NewRequest in Hnew.
  destruct (NewRequest_error method (URL_String uri)); [discriminate|].
  injection Hnew as <-.
  exists uri. cbn [URL Body Method set_headers Header_Set].
  repeat split; try assumption; try reflexivity.
Qed.

Lemma log_request_logged c method data request :
  log_request c method (URL request) data (Body request)
  = logged c [request_line method data request].
Proof.
  unfold log_request, logged, request_line, Printf.
  destruct (DebugLog c); [|reflexivity]. destruct data; reflexivity.
Qed.

Lemma log_response_logged c (lines : list string) body :
  log_response (logged c lines) body = logged c (app lines [response_line body]).
Proof.
  unfold log_response, logged, response_line, Printf.
  destruct (DebugLog c); [|reflexivity]. now rewrite <- app_assoc.
Qed.

Lemma exchange_answered_log c v request l status body :
  answers c request status body ->
  log (exchange c v request l) = log_response l body.
Proof.
  unfold answers, exchange. intros ->. cbn.
  destruct (status =? 500); [reflexivity|].
  destruct ((status =? 200) || (status =? 201)).
  - destruct (json_Unmarshal_interface body v) as [v' [e|]]; reflexivity.
  - destruct (json_Unmarshal body zero_ErrorResponse) as [r [e|]]; reflexivity.
Qed.

Lemma exchange_log_cases c v request (l : option Logger) :
  log (exchange c v request l) = l \/
  exists body, log (exchange c v request l) = log_response l body.
Proof.
  unfold exchange.
  destruct (HTTPClient c request) as [response|e]; [|left; reflexivity].
  destruct (ReadAll response) as [responseBody|e]; [|left; reflexivity].
  right. exists responseBody.
  destruct (StatusCode response =? 500); [reflexivity|].
  destruct ((StatusCode response =? 200) || (StatusCode response =? 201)).
  - destruct (json_Unmarshal_interface responseBody v) as [v' [e|]]; reflexivity.
  - destruct (json_Unmarshal responseBody zero_ErrorResponse) as [r [e|]]; reflexivity.
Qed.

(** ** Failures before the request is sent *)

Lemma Request_unsent c v method path data :
  sent (Request c v method path data) = None ->
  target (Request c v method path data) = v /\
  log (Request c v method path data) = DebugLog c.
Proof.
  unfold Request.
  destruct (url_Parse (resolve path)) as [uri|e]; [|auto].
  destruct (encode data) as [js|e]; [|auto].
  destruct (http_NewRequest method (URL_String uri) js) as [bare|e]; [|auto].
  rewrite exchange_sent. discriminate.
Qed.

(** X1.  A call that hands no request to the HTTP client failed while
    the request was built: with the error of [url.Parse]; or, the URL
    being parsed, with the error of [json.Marshal]; or, both being done,
    with the error of [http.NewRequest].  The caller's target and the
    debug logger are as they were: nothing is printed. *)
Theorem unsent_call_failed_in_the_builder c v method path data :
  sent (Request c v method path data) = None ->
  target (Request c v method path data) = v /\
  log (Request c v method path data) = DebugLog c /\
  ((exists e, url_Parse (resolve path) = inr e /\
              err (Request c v method path data) = Some (url_Error e)) \/
   (exists uri e, url_Parse (resolve path) = inl uri /\
                  encode data = inr e /\
                  err (Request c v method path data) = Some (json_MarshalError e)) \/
   (exists uri jsonEncoded e,
       url_Parse (resolve path) = inl uri /\
       encode data = inl jsonEncoded /\
       NewRequest_error method (URL_String uri) = Some e /\
       err (Request c v method path data) = Some (http_NewRequestError e))).
Proof.
  unfold Request.
  destruct (url_Parse (resolve path)) as [uri|e] eqn:Huri.
  2:{ intros _. repeat split. left. exists e. split; reflexivity. }
  destruct (encode data) as [js|e] eqn:Henc.
  2:{ intros _. repeat split. right. left. exists uri, e. repeat split; reflexivity. }
  unfold http_NewRequest.
  destruct (NewRequest_error method (URL_String uri)) as [e|] eqn:Hnew.
  - intros _. repeat split. right. right. exists uri, js, e.
    repeat split; assumption || reflexivity.
  - rewrite exchange_sent. discriminate.
Qed.

(** ** Failures of the transport *)

(** X2.  When the HTTP client fails, [Request] returns its error as it
    is, the caller's target is as it was, and the debug logger, if there
    is one, has got the request line and nothing else. *)
Theorem transport_error_is_returned c v method path data request e :
  sent (Request c v method path data) = Some request ->
  HTTPClient c request = inr e ->
  err (Request c v method path data) = Some (http_DoError e) /\
  target (Request c v method path data) = v /\
  log (Request c v method path data) = logged c [request_line method data request].
Proof.
  intros Hsent Hdo.
  destruct (Request_sent_fields _ _ _ _ _ _ Hsent) as (uri & _ & _ & _ & _ & _ & ->).
  unfold exchange. rewrite Hdo. cbn. rewrite log_request_logged. auto.
Qed.

(** X3.  When the body of the response cannot be read in full,
    [Request] returns the read error whatever the status code is (also
    under 200 and 500), the caller's target is as it was, and the debug
    logger has got the request line only. *)
Theorem read_error_is_returned c v method path data request response e :
  sent (Request c v method path data) = Some request ->
  HTTPClient c request = inl response ->
  ReadAll response = inr e ->
  err (Request c v method path data) = Some (io_ReadError e) /\
  target (Request c v method path data) = v /\
  log (Request c v method path data) = logged c [request_line method data request].
Proof.
  intros Hsent Hdo Hread.
  destruct (Request_sent_fields _ _ _ _ _ _ Hsent) as (uri & _ & _ & _ & _ & _ & ->).
  unfold exchange. rewrite Hdo, Hread. cbn. rewrite log_request_logged. auto.
Qed.

(** ** The debug log *)

(** X4.  When a response has been read, the debug logger has got two
    lines, in this order and whatever the status code and the result of
    the call are: the request line, with the method as it was passed, the
    URL of the request and, when there is a payload, its encoding; and
    the response line with the raw body.  A client without logger still
    has none. *)
Theorem debug_log_lines c v method path data request status body :
  sent (Request c v method path data) = Some request ->
  answers c request status body ->
  log (Request c v method path data)
  = logged c [request_line method data request; response_line body].
Proof.
  intros Hsent Hans.
  destruct (Request_sent_fields _ _ _ _ _ _ Hsent) as (uri & _ & _ & _ & _ & _ & ->).
  rewrite (exchange_answered_log _ _ _ _ _ _ Hans), log_request_logged.
  apply log_response_logged.
Qed.

(** X5.  The debug logger is only appended to: after any call, what was
    in it is still there, followed by at most two new lines, and by none
    exactly when no request was handed to the HTTP client. *)
Theorem debug_log_is_append_only c v method path data (l : Logger) :
  DebugLog c = Some l ->
  exists added : list string,
    log (Request c v method path data) = Some (app l added) /\
    (length added <= 2)%nat /\
    (added = [] <-> sent (Request c v method path data) = None).
Proof.
  intros Hl.
  destruct (sent (Request c v method path data)) as [request|] eqn:Hsent.
  - destruct (Request_sent_fields _ _ _ _ _ _ Hsent) as (uri & _ & _ & _ & _ & _ & Heq).
    rewrite Heq, log_request_logged.
    destruct (exchange_log_cases c v request (logged c [request_line method data request]))
      as [-> | [body ->]].
    + unfold logged. rewrite Hl. eexists. split; [reflexivity|].
      split; [cbn; lia|]. split; discriminate.
    + rewrite log_response_logged. unfold logged. rewrite Hl. eexists.
      split; [reflexivity|]. split; [cbn; lia|]. split; discriminate.
  - destruct (Request_unsent c v method path data Hsent) as [_ Hlog].
    exists []. rewrite Hlog, Hl, app_nil_r. split; [reflexivity|].
    split; [cbn; lia|]. split; reflexivity.
Qed.

(** ** Success and failure *)

(** X6.  [Request] returns nil exactly when a request was sent, the
    response was read in full, its status code is 200 or 201 and
    [json.Unmarshal] reports no error for its body.  Every other call
    returns an error, whatever the status code: 204 and every other 2xx
    code included. *)
Theorem success_exactly_when_decoded c v method path data :
  err (Request c v method path data) = None <->
  exists request response body,
    sent (Request c v method path data) = Some request /\
    HTTPClient c request = inl response /\
    ReadAll response = inl body /\
    is_200_or_201 (StatusCode response) /\
    snd (json_Unmarshal_interface body v) = None.
Proof.
  split.
  - intros Herr.
    destruct (sent (Request c v method path data)) as [request|] eqn:Hsent.
    2:{ revert Herr Hsent. unfold Request.
        destruct (url_Parse (resolve path)) as [uri|e]; [|discriminate].
        destruct (encode data) as [js|e]; [|discriminate].
        destruct (http_NewRequest method (URL_String uri) js) as [bare|e]; [|discriminate].
        rewrite exchange_sent. discriminate. }
    destruct (Request_sent_fields _ _ _ _ _ _ Hsent) as (uri & _ & _ & _ & _ & _ & Heq).
    rewrite Heq in Herr. revert Herr. unfold exchange.
    destruct (HTTPClient c request) as [response|e] eqn:Hdo; [|discriminate].
    destruct (ReadAll response) as [body|e] eqn:Hread; [|discriminate].
    destruct (Z.eqb_spec (StatusCode response) 500); [discriminate|].
    destruct (Z.eqb_spec (StatusCode response) 200) as [H200|H200];
      [|destruct (Z.eqb_spec (StatusCode response) 201) as [H201|H201]]; cbn [orb].
    + destruct (json_Unmarshal_interface body v) as [v' [e|]] eqn:Hdec; [discriminate|].
      intros _. exists request, response, body. unfold is_200_or_201.
      rewrite Hdec. repeat split; auto.
    + destruct (json_Unmarshal_interface body v) as [v' [e|]] eqn:Hdec; [discriminate|].
      intros _. exists request, response, body. unfold is_200_or_201.
      rewrite Hdec. repeat split; auto.
    + destruct (json_Unmarshal body zero_ErrorResponse) as [r [e|]]; discriminate.
  - intros (request & response & body & Hsent & Hdo & Hread & Hstatus & Hdec).
    destruct (Request_sent_fields _ _ _ _ _ _ Hsent) as (uri & _ & _ & _ & _ & _ & ->).
    destruct response as [status rd]. cbn in Hread, Hstatus. subst rd.
    rewrite (exchange_success _ _ _ _ status body Hdo Hstatus).
    destruct (json_Unmarshal_interface body v) as [v' [e|]]; [discriminate|reflexivity].
Qed.

(** X7.  A response whose body is not valid JSON (an empty body, for
    one) never makes [Request] succeed: the call returns
    [ErrUnexpectedResponse] under 500, the decode failure quoting the
    body under 200 and 201, and the scanner's syntax error under every
    other status code. *)
Theorem invalid_body_is_never_success c v method path data request status body :
  sent (Request c v method path data) = Some request ->
  answers c request status body ->
  checkValid body = None ->
  err (Request c v method path data)
  = Some (if status =? 500 then ErrUnexpectedResponse
          else if (status =? 200) || (status =? 201)
               then decode_failure body (SyntaxError body)
               else json_Error (SyntaxError body)).
Proof.
  intros Hsent Hans Hinvalid.
  destruct (Request_sent_fields _ _ _ _ _ _ Hsent) as (uri & _ & _ & _ & _ & _ & ->).
  unfold answers in Hans. unfold exchange. rewrite Hans. cbn.
  destruct (status =? 500); [reflexivity|].
  destruct ((status =? 200) || (status =? 201)).
  - unfold json_Unmarshal_interface. rewrite Hinvalid. reflexivity.
  - unfold json_Unmarshal. rewrite Hinvalid. reflexivity.
Qed.

(** X8.  What [Request] returns and leaves in the target depends on the
    call only through the response and the target: two calls with the
    same target, whatever their clients, methods, paths and payloads,
    whose responses have the same body and status codes that pass the
    same tests (equal to 500; equal to 200 or 201), return the same
    error and leave the same value in the target. *)
Theorem outcome_depends_on_response_only {D' : Type} `{Marshaler D'}
    c1 c2 v method1 method2 path1 path2 data1 (data2 : option D')
    request1 request2 status1 status2 body :
  sent (Request c1 v method1 path1 data1) = Some request1 ->
  sent (Request c2 v method2 path2 data2) = Some request2 ->
  answers c1 request1 status1 body ->
  answers c2 request2 status2 body ->
  (is_500 status1 <-> is_500 status2) ->
  (is_200_or_201 status1 <-> is_200_or_201 status2) ->
  err (Request c1 v method1 path1 data1) = err (Request c2 v method2 path2 data2) /\
  target (Request c1 v method1 path1 data1) = target (Request c2 v method2 path2 data2).
Proof.
  intros Hsent1 Hsent2 Hans1 Hans2 H500 H2xx.
  destruct (Request_sent _ _ _ _ _ _ Hsent1) as (? & ? & ? & _ & _ & _ & _ & ->).
  destruct (Request_sent _ _ _ _ _ _ Hsent2) as (? & ? & ? & _ & _ & _ & _ & ->).
  unfold answers in Hans1, Hans2. unfold exchange. rewrite Hans1, Hans2. cbn.
  unfold is_500, is_200_or_201 in *.
  destruct (Z.eqb_spec status1 500), (Z.eqb_spec status2 500);
    [auto | exfalso; tauto | exfalso; tauto |].
  assert (Hb : (status1 =? 200) || (status1 =? 201) = (status2 =? 200) || (status2 =? 201)).
  { apply Bool.eq_iff_eq_true. rewrite !Bool.orb_true_iff, !Z.eqb_eq. exact H2xx. }
  rewrite Hb. destruct ((status2 =? 200) || (status2 =? 201)).
  - destruct (json_Unmarshal_interface body v) as [v' [e|]]; auto.
  - destruct (json_Unmarshal body zero_ErrorResponse) as [r [e|]]; auto.
Qed.

(** X9.  Under 200 and 201, a body that is the literal null makes
    [Request] succeed and leaves the caller's target as it was, unless
    the caller's variable is itself of a pointer type: then the variable
    gets what [json.Unmarshal] of null gives it, nil. *)
Theorem null_body_leaves_target c v method path data request status body :
  sent (Request c v method path data) = Some request ->
  answers c request status body ->
  is_200_or_201 status ->
  checkValid body = Some JNull ->
  ((forall x, v <> PointerToPointer x) ->
   err (Request c v method path data) = None /\
   target (Request c v method path data) = v) /\
  (forall x, v = PointerToPointer x ->
   target (Request c v method path data) = PointerToPointer (fst (decode JNull x)) /\
   (err (Request c v method path data) = None <-> snd (decode JNull x) = None)).
Proof.
  intros Hsent Hans Hstatus Hnull.
  destruct (Request_sent_fields _ _ _ _ _ _ Hsent) as (uri & _ & _ & _ & _ & _ & ->).
  rewrite (exchange_success _ _ _ _ _ _ Hans Hstatus).
  unfold json_Unmarshal_interface. rewrite Hnull. split.
  - intros Hkind. destruct v as [|x|x]; [split; reflexivity | split; reflexivity|].
    exfalso. exact (Hkind x eq_refl).
  - intros x ->. destruct (decode JNull x) as [x' [e|]]; cbn.
    + split; [reflexivity|]. split; discriminate.
    + split; [reflexivity|]. split; reflexivity.
Qed.

(** X10.  When the argument [v] holds no pointer (nil, as for a call
    whose result is not wanted), it stays so after every call, and under
    200 and 201 the call succeeds exactly when the body is valid JSON, of
    whatever shape, in which every number fits a [float64]. *)
Theorem without_pointer_any_valid_body_succeeds c method path data :
  target (Request c (@NotAPointer V) method path data) = NotAPointer /\
  forall request status body,
    sent (Request c (@NotAPointer V) method path data) = Some request ->
    answers c request status body ->
    is_200_or_201 status ->
    (err (Request c (@NotAPointer V) method path data) = None <->
     exists j, checkValid body = Some j /\ decode_interface j = None).
Proof.
  split.
  - unfold Request.
    destruct (url_Parse (resolve path)) as [uri|e]; [|reflexivity].
    destruct (encode data) as [js|e]; [|reflexivity].
    destruct (http_NewRequest method (URL_String uri) js) as [bare|e]; [|reflexivity].
    unfold exchange.
    destruct (HTTPClient c (set_headers c bare)) as [response|e]; [|reflexivity].
    destruct (ReadAll response) as [body|e]; [|reflexivity].
    destruct (StatusCode response =? 500); [reflexivity|].
    destruct ((StatusCode response =? 200) || (StatusCode response =? 201)).
    + unfold json_Unmarshal_interface.
      destruct (checkValid body) as [j|]; [|reflexivity].
      destruct j; try reflexivity;
        match goal with |- context [decode_interface ?j] =>
          destruct (decode_interface j); reflexivity end.
    + destruct (json_Unmarshal body zero_ErrorResponse) as [r [e|]]; reflexivity.
  - intros request status body Hsent Hans Hstatus.
    destruct (Request_sent_fields _ _ _ _ _ _ Hsent) as (uri & _ & _ & _ & _ & _ & ->).
    rewrite (exchange_success _ _ _ _ _ _ Hans Hstatus).
    unfold json_Unmarshal_interface.
    destruct (checkValid body) as [j|].
    2:{ cbn. split; [discriminate | intros (j & Hj & _); discriminate Hj]. }
    assert (Hstored : (match @NotAPointer V, j with
                       | PointerToPointer x, _ =>
                           let '(x', e) := decode j x in (PointerToPointer x', e)
                       | _, JNull => (NotAPointer, None)
                       | NotAPointer, _ => (NotAPointer, decode_interface j)
                       | Pointer x, _ => let '(x', e) := decode j x in (Pointer x', e)
                       end) = (@NotAPointer V, decode_interface j))
      by (destruct j; reflexivity).
    rewrite Hstored. destruct (decode_interface j) as [e|] eqn:Hj; cbn.
    + split; [discriminate|]. intros (j' & [= <-] & Hj'). congruence.
    + split; [|reflexivity]. intros _. exists j. split; [reflexivity | exact Hj].
Qed.

(** ** The request *)

(** X11.  The request handed to the HTTP client has the method that was
    passed, or GET when that is empty, and its body is the encoding of
    the payload by [json.Marshal], or empty when there is no payload. *)
Theorem request_method_and_body c v method path data request :
  sent (Request c v method path data) = Some request ->
  Method request = (if String.eqb method EmptyString then "GET" else method) /\
  (data = None -> Body request = EmptyString) /\
  (forall d, data = Some d -> json_Marshal d = inl (Body request)).
Proof.
  intros Hsent.
  destruct (Request_sent_fields _ _ _ _ _ _ Hsent) as (uri & _ & _ & Henc & Hm & _ & _).
  split; [exact Hm|]. split.
  - intros ->. cbn in Henc. congruence.
  - intros d ->. exact Henc.
Qed.

(** ** Bodies of error responses *)

Lemma decode_members_without_errors (ms : list (string * json)) (cur : ErrorResponse) :
  Forall (fun kv => EqualFold (fst kv) "errors" = false) ms ->
  decode_members store_ErrorResponse ms cur = (cur, None).
Proof.
  induction 1 as [|[k j] ms Hk _ IH]; [reflexivity|].
  cbn [decode_members]. unfold store_ErrorResponse at 1. cbn [fst] in Hk.
  rewrite Hk, IH. reflexivity.
Qed.

(** X12.  When the status code is none of 200, 201 and 500 and the body
    is the literal null or an object without a member named [errors] (in
    any case of the letters), [Request] returns an [ErrorResponse] error
    with no item. *)
Theorem error_body_without_errors_member c v method path data request status body :
  sent (Request c v method path data) = Some request ->
  answers c request status body ->
  status <> 200 -> status <> 201 -> status <> 500 ->
  (checkValid body = Some JNull \/
   exists ms, checkValid body = Some (JObject ms) /\
              Forall (fun kv => EqualFold (fst kv) "errors" = false) ms) ->
  err (Request c v method path data) = Some (APIError (mkErrorResponse [])).
Proof.
  intros Hsent Hans H200 H201 H500 Hbody.
  destruct (Request_sent_fields _ _ _ _ _ _ Hsent) as (uri & _ & _ & _ & _ & _ & ->).
  rewrite (exchange_other _ _ _ _ _ _ Hans H200 H201 H500).
  unfold json_Unmarshal.
  destruct Hbody as [-> | (ms & -> & Hms)]; [reflexivity|].
  unfold decode, decode_ErrorResponse, decode_struct.
  rewrite (decode_members_without_errors ms _ Hms). reflexivity.
Qed.

(** X13.  When the status code is none of 200, 201 and 500 and the body
    is valid JSON but neither an object nor null (an array, a string, a
    number, a boolean), [Request] returns the type error of
    [json.Unmarshal], not an [ErrorResponse]. *)
Theorem error_body_of_another_kind c v method path data request status body j :
  sent (Request c v method path data) = Some request ->
  answers c request status body ->
  status <> 200 -> status <> 201 -> status <> 500 ->
  checkValid body = Some j ->
  j <> JNull -> (forall ms, j <> JObject ms) ->
  err (Request c v method path data)
  = Some (json_Error (UnmarshalTypeError (json_kind j) "messagebird.ErrorResponse")).
Proof.
  intros Hsent Hans H200 H201 H500 Hbody Hnull Hobj.
  destruct (Request_sent_fields _ _ _ _ _ _ Hsent) as (uri & _ & _ & _ & _ & _ & ->).
  rewrite (exchange_other _ _ _ _ _ _ Hans H200 H201 H500).
  unfold json_Unmarshal. rewrite Hbody.
  destruct j; try reflexivity; [congruence | exfalso; eapply Hobj; reflexivity].
Qed.

(** ** [New] *)

(** X14.  A client made by [New] has no debug logger, so its calls print
    nothing; every request it sends carries the access key that was
    passed to [New] in its [Authorization] header; and what [Request]
    returns when the transport fails is the error of the standard HTTP
    client with the timeout of 15 seconds. *)
Theorem New_client (http_Client_Do : Z -> http_Request -> http_Response + string)
    accessKey v method path data :
  log (Request (New http_Client_Do accessKey) v method path data) = None /\
  forall request,
    sent (Request (New http_Client_Do accessKey) v method path data) = Some request ->
    Header request !! "Authorization" = Some ["AccessKey " +:+ accessKey] /\
    forall e, http_Client_Do 15000000000 request = inr e ->
              err (Request (New http_Client_Do accessKey) v method path data)
              = Some (http_DoError e).
Proof.
  split.
  - destruct (sent (Request (New http_Client_Do accessKey) v method path data))
      as [request|] eqn:Hsent.
    + destruct (Request_sent_fields _ _ _ _ _ _ Hsent) as (uri & _ & _ & _ & _ & _ & ->).
      rewrite log_request_logged.
      destruct (exchange_log_cases (New http_Client_Do accessKey) v request
                  (logged (New http_Client_Do accessKey) [request_line method data request]))
        as [-> | [body ->]]; reflexivity.
    + apply Request_unsent in Hsent. destruct Hsent as [_ ->]. reflexivity.
  - intros request Hsent.
    destruct (Request_sent_fields _ _ _ _ _ _ Hsent) as (uri & _ & _ & _ & _ & Hh & ->).
    split; [rewrite Hh; reflexivity|].
    intros e He. unfold exchange. cbn [HTTPClient New].
    change (15 * 1000000000) with 15000000000 in *.
    unfold httpClientTimeout. change (15 * 1000000000) with 15000000000.
    rewrite He. reflexivity.
Qed.

End Further.

(** ** Resolution of the path *)

(** X15.  The string that [Request] parses as a URL always begins with
    [https://] or [http://], and resolving it again changes nothing: the
    base endpoint is put before a path at most once. *)
Theorem resolve_is_absolute_and_idempotent (path : string) :
  (HasPrefix (resolve path) "https://" = true \/ HasPrefix (resolve path) "http://" = true) /\
  resolve (resolve path) = resolve path.
Proof.
  assert (Habs : HasPrefix (resolve path) "https://" = true \/
                 HasPrefix (resolve path) "http://" = true).
  { unfold resolve.
    destruct (HasPrefix path "https://") eqn:Hs; [left; exact Hs|].
    destruct (HasPrefix path "http://") eqn:Hp; [right; exact Hp|].
    left. reflexivity. }
  split; [exact Habs|]. apply resolve_absolute. exact Habs.
Qed.

(** ** Closed examples of the further properties *)

(** A path with a space, which the URL parser of the examples rejects. *)
Lemma unsent_call_failed_in_the_builder_witness :
  sent (Failing.call_via Failing.refused (Some ["earlier"]) "GET" "bad path" None) = None /\
  target (Failing.call_via Failing.refused (Some ["earlier"]) "GET" "bad path" None)
  = Pointer Sample.old_contact /\
  log (Failing.call_via Failing.refused (Some ["earlier"]) "GET" "bad path" None)
  = Some ["earlier"].
Proof.
  assert (Hsent : sent (Failing.call_via Failing.refused (Some ["earlier"])
                          "GET" "bad path" None) = None) by (vm_compute; reflexivity).
  split; [exact Hsent|].
  destruct (@unsent_call_failed_in_the_builder Sample.runtime unit Sample.Contact
              Sample.empty_struct Sample.decode_Contact _ _ _ _ _ Hsent) as (Ht & Hl & _).
  split; [exact Ht | exact Hl].
Defined.

(** A POST with a payload through a transport that refuses the
    connection. *)
Lemma transport_error_is_returned_witness :
  err (Failing.call_via Failing.refused (Some []) "POST" "messages" (Some tt))
  = Some (http_DoError "dial tcp: connection refused") /\
  target (Failing.call_via Failing.refused (Some []) "POST" "messages" (Some tt))
  = Pointer Sample.old_contact /\
  log (Failing.call_via Failing.refused (Some []) "POST" "messages" (Some tt))
  = Some ["HTTP REQUEST: POST https://rest.messagebird.com/messages {}"].
Proof.
  assert (Hsent : sent (Failing.call_via Failing.refused (Some []) "POST" "messages" (Some tt))
                  = Some (Failing.post_to "https://rest.messagebird.com/messages"))
    by (vm_compute; reflexivity).
  exact (@transport_error_is_returned Sample.runtime unit Sample.Contact
           Sample.empty_struct Sample.decode_Contact _ _ _ _ _ _
           "dial tcp: connection refused" Hsent eq_refl).
Defined.

(** A response with status 200 whose body breaks off. *)
Lemma read_error_is_returned_witness :
  err (Failing.call_via (Failing.truncated 200) (Some []) "POST" "messages" (Some tt))
  = Some (io_ReadError "unexpected EOF") /\
  target (Failing.call_via (Failing.truncated 200) (Some []) "POST" "messages" (Some tt))
  = Pointer Sample.old_contact /\
  log (Failing.call_via (Failing.truncated 200) (Some []) "POST" "messages" (Some tt))
  = Some ["HTTP REQUEST: POST https://rest.messagebird.com/messages {}"].
Proof.
  assert (Hsent : sent (Failing.call_via (Failing.truncated 200) (Some [])
                          "POST" "messages" (Some tt))
                  = Some (Failing.post_to "https://rest.messagebird.com/messages"))
    by (vm_compute; reflexivity).
  exact (@read_error_is_returned Sample.runtime unit Sample.Contact
           Sample.empty_struct Sample.decode_Contact _ _ _ _ _ _
           (mkResponse 200 (inr "unexpected EOF")) "unexpected EOF" Hsent eq_refl eq_refl).
Defined.

(** A POST answered with status 404, with a logger that has one line. *)
Lemma debug_log_lines_witness :
  log (Failing.call_via (Sample.always 404 "not found") (Some ["earlier"])
         "POST" "messages" (Some tt))
  = Some ["earlier";
          "HTTP REQUEST: POST https://rest.messagebird.com/messages {}";
          "HTTP RESPONSE: not found"].
Proof.
  assert (Hsent : sent (Failing.call_via (Sample.always 404 "not found") (Some ["earlier"])
                          "POST" "messages" (Some tt))
                  = Some (Failing.post_to "https://rest.messagebird.com/messages"))
    by (vm_compute; reflexivity).
  exact (@debug_log_lines Sample.runtime unit Sample.Contact
           Sample.empty_struct Sample.decode_Contact _ _ _ _ _ _ 404 "not found"
           Hsent eq_refl).
Defined.

Lemma debug_log_is_append_only_witness :
  exists added : list string,
    log (Failing.call_via (Sample.always 404 "not found") (Some ["earlier"])
           "POST" "messages" (Some tt))
    = Some (app ["earlier"] added) /\
    (length added <= 2)%nat /\
    (added = [] <->
     sent (Failing.call_via (Sample.always 404 "not found") (Some ["earlier"])
             "POST" "messages" (Some tt)) = None).
Proof.
  exact (@debug_log_is_append_only Sample.runtime unit Sample.Contact
           Sample.empty_struct Sample.decode_Contact
           (mkClient "test-key" (Sample.always 404 "not found") (Some ["earlier"]))
           (Pointer Sample.old_contact) "POST" "messages" (Some tt) ["earlier"] eq_refl).
Defined.

(** Status 201 with an object that has one of the two fields. *)
Lemma success_exactly_when_decoded_witness :
  err (Failing.call_via (Sample.always 201 (dq "{'ID':3}")) None "POST" "contacts" (Some tt))
  = None.
Proof.
  apply (proj2 (@success_exactly_when_decoded Sample.runtime unit Sample.Contact
                  Sample.empty_struct Sample.decode_Contact
                  (mkClient "test-key" (Sample.always 201 (dq "{'ID':3}")) None)
                  (Pointer Sample.old_contact) "POST" "contacts" (Some tt))).
  exists (Failing.post_to "https://rest.messagebird.com/contacts"),
    (mkResponse 201 (inl (dq "{'ID':3}"))), (dq "{'ID':3}").
  split; [vm_compute; reflexivity|]. split; [reflexivity|]. split; [reflexivity|].
  split; [right; reflexivity | vm_compute; reflexivity].
Defined.

(** Status 204 with an empty body. *)
Lemma invalid_body_is_never_success_witness :
  checkValid EmptyString = None /\
  err (Failing.call_via (Sample.always 204 EmptyString) None "DELETE" "contacts/1" None)
  = Some (json_Error (SyntaxError EmptyString)).
Proof.
  assert (Hsent : sent (Failing.call_via (Sample.always 204 EmptyString) None
                          "DELETE" "contacts/1" None)
                  = Some (mkRequest "DELETE" "https://rest.messagebird.com/contacts/1"
                            (Header (Sample.request_to EmptyString)) EmptyString))
    by (vm_compute; reflexivity).
  split; [reflexivity|].
  exact (@invalid_body_is_never_success Sample.runtime unit Sample.Contact
           Sample.empty_struct Sample.decode_Contact _ _ _ _ _ _ 204 EmptyString
           Hsent eq_refl eq_refl).
Defined.

(** A GET answered with 422 and a POST to another path answered with
    404, with the same body. *)
Lemma outcome_depends_on_response_only_witness :
  err (Failing.call_via (Sample.always 422 body_422) None "GET" "messages/1" None)
  = err (Failing.call_via (Sample.always 404 body_422) (Some []) "POST" "contacts" (Some tt)) /\
  target (Failing.call_via (Sample.always 422 body_422) None "GET" "messages/1" None)
  = target (Failing.call_via (Sample.always 404 body_422) (Some []) "POST" "contacts" (Some tt)).
Proof.
  assert (H1 : sent (Failing.call_via (Sample.always 422 body_422) None "GET" "messages/1" None)
               = Some (Sample.request_to "https://rest.messagebird.com/messages/1"))
    by (vm_compute; reflexivity).
  assert (H2 : sent (Failing.call_via (Sample.always 404 body_422) (Some [])
                       "POST" "contacts" (Some tt))
               = Some (Failing.post_to "https://rest.messagebird.com/contacts"))
    by (vm_compute; reflexivity).
  refine (@outcome_depends_on_response_only Sample.runtime unit Sample.Contact
            Sample.empty_struct Sample.decode_Contact unit Sample.empty_struct
            _ _ _ _ _ _ _ _ _ _ _ 422 404 body_422 H1 H2 eq_refl eq_refl _ _).
  - unfold is_500. split; intros E; discriminate E.
  - unfold is_200_or_201. split; intros [E|E]; discriminate E.
Defined.

(** Status 200 with the body null: into a [*Contact], and into a
    [**string] whose pointer was set. *)
Lemma null_body_leaves_target_witness :
  err (Failing.call_via (Sample.always 200 "null") None "GET" "contacts/1" None) = None /\
  target (Failing.call_via (Sample.always 200 "null") None "GET" "contacts/1" None)
  = Pointer Sample.old_contact /\
  target (Shapes.call_string_ptr 200 "null" (PointerToPointer (Some "kept")) "GET" "name")
  = PointerToPointer None.
Proof.
  assert (Hsent : sent (Failing.call_via (Sample.always 200 "null") None
                          "GET" "contacts/1" None)
                  = Some (Sample.request_to "https://rest.messagebird.com/contacts/1"))
    by (vm_compute; reflexivity).
  assert (Hptr : sent (Shapes.call_string_ptr 200 "null" (PointerToPointer (Some "kept"))
                         "GET" "name")
                 = Some (Sample.request_to "https://rest.messagebird.com/name"))
    by (vm_compute; reflexivity).
  destruct (@null_body_leaves_target Sample.runtime unit Sample.Contact
              Sample.empty_struct Sample.decode_Contact _ _ _ _ _ _ 200 "null"
              Hsent eq_refl (or_introl eq_refl) eq_refl) as [Hplain _].
  destruct (@null_body_leaves_target Sample.runtime unit (option string)
              Sample.empty_struct decode_string_ptr _ _ _ _ _ _ 200 "null"
              Hptr eq_refl (or_introl eq_refl) eq_refl) as [_ Hpp].
  destruct (Hplain ltac:(discriminate)) as [Herr Htarget].
  split; [exact Herr|]. split; [exact Htarget|].
  exact (proj1 (Hpp (Some "kept") eq_refl)).
Defined.

(** A call without target, answered with 200 and an array; and with a
    number that no [float64] holds. *)
Lemma without_pointer_any_valid_body_succeeds_witness :
  err (Failing.call_into NotAPointer (Sample.always 200 "[1,2,3]") None
         "DELETE" "contacts/1" None) = None /\
  target (Failing.call_into NotAPointer (Sample.always 200 "[1,2,3]") None
            "DELETE" "contacts/1" None) = NotAPointer /\
  err (Failing.call_into NotAPointer (Sample.always 200 "[1e400]") None
         "DELETE" "contacts/1" None) <> None.
Proof.
  assert (Hfits : sent (Failing.call_into NotAPointer (Sample.always 200 "[1,2,3]") None
                          "DELETE" "contacts/1" None)
                  = Some (mkRequest "DELETE" "https://rest.messagebird.com/contacts/1"
                            (Header (Sample.request_to EmptyString)) EmptyString))
    by (vm_compute; reflexivity).
  assert (Hhuge : sent (Failing.call_into NotAPointer (Sample.always 200 "[1e400]") None
                          "DELETE" "contacts/1" None)
                  = Some (mkRequest "DELETE" "https://rest.messagebird.com/contacts/1"
                            (Header (Sample.request_to EmptyString)) EmptyString))
    by (vm_compute; reflexivity).
  destruct (@without_pointer_any_valid_body_succeeds Sample.runtime unit Sample.Contact
              Sample.empty_struct Sample.decode_Contact
              (mkClient "test-key" (Sample.always 200 "[1,2,3]") None)
              "DELETE" "contacts/1" None) as [Htarget Hiff].
  destruct (@without_pointer_any_valid_body_succeeds Sample.runtime unit Sample.Contact
              Sample.empty_struct Sample.decode_Contact
              (mkClient "test-key" (Sample.always 200 "[1e400]") None)
              "DELETE" "contacts/1" None) as [_ Hiff'].
  split; [|split].
  - apply (proj2 (Hiff _ 200 "[1,2,3]" Hfits eq_refl (or_introl eq_refl))).
    eexists. split; [vm_compute; reflexivity | vm_compute; reflexivity].
  - exact Htarget.
  - intros Herr.
    destruct (proj1 (Hiff' _ 200 "[1e400]" Hhuge eq_refl (or_introl eq_refl)) Herr)
      as (j & Hj & Hfit).
    vm_compute in Hj. injection Hj as <-. vm_compute in Hfit. discriminate Hfit.
Defined.

(** A POST with the payload [struct{}{}], and a call with an empty
    method and no payload. *)
Lemma request_method_and_body_witness :
  Method (Failing.post_to "https://rest.messagebird.com/messages") = "POST" /\
  json_Marshal (Marshaler := Sample.empty_struct) tt
  = inl (Body (Failing.post_to "https://rest.messagebird.com/messages")) /\
  Method (Sample.request_to "https://rest.messagebird.com/balance") = "GET" /\
  Body (Sample.request_to "https://rest.messagebird.com/balance") = EmptyString.
Proof.
  assert (H1 : sent (Failing.call_via Failing.refused None "POST" "messages" (Some tt))
               = Some (Failing.post_to "https://rest.messagebird.com/messages"))
    by (vm_compute; reflexivity).
  assert (H2 : sent (Failing.call_via Failing.refused None EmptyString "balance" None)
               = Some (Sample.request_to "https://rest.messagebird.com/balance"))
    by (vm_compute; reflexivity).
  destruct (@request_method_and_body Sample.runtime unit Sample.Contact
              Sample.empty_struct Sample.decode_Contact _ _ _ _ _ _ H1) as (Hm1 & _ & Hb1).
  destruct (@request_method_and_body Sample.runtime unit Sample.Contact
              Sample.empty_struct Sample.decode_Contact _ _ _ _ _ _ H2) as (Hm2 & Hb2 & _).
  split; [exact Hm1|]. split; [exact (Hb1 tt eq_refl)|].
  split; [exact Hm2 | exact (Hb2 eq_refl)].
Defined.

(** Status 404 with an object that has a message and no errors. *)
Lemma error_body_without_errors_member_witness :
  err (Failing.call_via (Sample.always 404 (dq "{'message':'not found'}")) None
         "GET" "contacts/1" None)
  = Some (APIError (mkErrorResponse [])).
Proof.
  assert (Hsent : sent (Failing.call_via (Sample.always 404 (dq "{'message':'not found'}"))
                          None "GET" "contacts/1" None)
                  = Some (Sample.request_to "https://rest.messagebird.com/contacts/1"))
    by (vm_compute; reflexivity).
  apply (@error_body_without_errors_member Sample.runtime unit Sample.Contact
           Sample.empty_struct Sample.decode_Contact _ _ _ _ _ _ 404
           (dq "{'message':'not found'}") Hsent eq_refl);
    try discriminate.
  right. exists [("message", JString "not found")].
  split; [vm_compute; reflexivity|]. repeat constructor.
Defined.

(** Status 502 with a JSON string. *)
Lemma error_body_of_another_kind_witness :
  err (Failing.call_via (Sample.always 502 (dq "'Bad Gateway'")) None
         "GET" "contacts/1" None)
  = Some (json_Error (UnmarshalTypeError "string" "messagebird.ErrorResponse")).
Proof.
  assert (Hsent : sent (Failing.call_via (Sample.always 502 (dq "'Bad Gateway'"))
                          None "GET" "contacts/1" None)
                  = Some (Sample.request_to "https://rest.messagebird.com/contacts/1"))
    by (vm_compute; reflexivity).
  apply (@error_body_of_another_kind Sample.runtime unit Sample.Contact
           Sample.empty_struct Sample.decode_Contact _ _ _ _ _ _ 502
           (dq "'Bad Gateway'") (JString "Bad Gateway") Hsent eq_refl);
    try discriminate.
  vm_compute. reflexivity.
Defined.

(** A client made by [New] on a standard client that refuses every
    connection. *)
Lemma New_client_witness :
  log (@Request Sample.runtime unit Sample.Contact Sample.empty_struct Sample.decode_Contact
         (New Failing.refused_Do "live_key") (Pointer Sample.old_contact)
         "GET" "balance" None) = None /\
  Header (mkRequest "GET" "https://rest.messagebird.com/balance"
            (standard_headers (H := Sample.runtime) (New Failing.refused_Do "live_key"))
            EmptyString) !! "Authorization"
  = Some ["AccessKey live_key"] /\
  err (@Request Sample.runtime unit Sample.Contact Sample.empty_struct Sample.decode_Contact
         (New Failing.refused_Do "live_key") (Pointer Sample.old_contact)
         "GET" "balance" None)
  = Some (http_DoError "dial tcp: connection refused").
Proof.
  assert (Hsent : sent (@Request Sample.runtime unit Sample.Contact Sample.empty_struct
                          Sample.decode_Contact (New Failing.refused_Do "live_key")
                          (Pointer Sample.old_contact) "GET" "balance" None)
                  = Some (mkRequest "GET" "https://rest.messagebird.com/balance"
                            (standard_headers (H := Sample.runtime)
                               (New Failing.refused_Do "live_key"))
                            EmptyString))
    by (vm_compute; reflexivity).
  destruct (@New_client Sample.runtime unit Sample.Contact Sample.empty_struct
              Sample.decode_Contact Failing.refused_Do "live_key"
              (Pointer Sample.old_contact) "GET" "balance" None) as [Hlog Hreq].
  destruct (Hreq _ Hsent) as [Hauth Herr].
  split; [exact Hlog|]. split; [exact Hauth|].
  exact (Herr "dial tcp: connection refused" eq_refl).
Defined.
